(** * Procurement Insights API: request validation and response repair

    A shallow embedding of [app/models.py], [app/llm_service.py] and
    [app/main.py].  Python values are modelled as the code has them:
    a [str] is a sequence of Unicode code points, a [float] is an IEEE
    binary64 number (Rocq's primitive floats), an [int] is unbounded, a
    [dict] keyed by strings is a finite map.  Raising an exception is a
    left injection; the only side effect that matters here, the call to
    the external generation service, is threaded as a call counter.

    What the repository does not contain (the JSON parser, the
    generation service, pydantic's message texts and coercions) is taken
    as a parameter, bundled in [Externals]. *)

From Stdlib Require Import ZArith NArith Bool Lia Floats DecimalString.
From stdpp Require Import gmap list strings.

Set Warnings "-inexact-float,-register-all".
#[local] Open Scope N_scope.

(** ** Python strings *)

Module Py.

(** A character is its code point. *)
Definition char := N.
Definition str := list N.

(** [py "abc"] is the Python string of a literal. *)
Definition py (s : string) : str :=
  map Ascii.N_of_ascii (String.list_ascii_of_string s).

(** The same, where an apostrophe in the literal stands for a double
    quote (code point 34). *)
Definition pyq (s : string) : str :=
  map (fun c => if c =? 39 then 34 else c) (py s).

Definition nl : str := [10].

(** Lines joined by a newline, for the multi-line literals. *)
Fixpoint lines (ls : list string) : str :=
  match ls with
  | [] => []
  | [l] => pyq l
  | l :: rest => pyq l ++ nl ++ lines rest
  end.

(** [str.isspace] on one character: the code points CPython's
    [_PyUnicode_IsWhitespace] accepts. *)
Definition isspace (c : char) : bool :=
  ((9 <=? c) && (c <=? 13)) || ((28 <=? c) && (c <=? 32))
  || (c =? 133) || (c =? 160) || (c =? 5760)
  || ((8192 <=? c) && (c <=? 8202))
  || (c =? 8232) || (c =? 8233) || (c =? 8239) || (c =? 8287)
  || (c =? 12288).

Fixpoint lstrip (s : str) : str :=
  match s with
  | [] => []
  | c :: r => if isspace c then lstrip r else s
  end.

Definition rstrip (s : str) : str := rev (lstrip (rev s)).

(** [s.strip()] *)
Definition strip (s : str) : str := rstrip (lstrip s).

(** [s.startswith(p)] *)
Fixpoint startswith (s p : str) {struct p} : bool :=
  match p, s with
  | [], _ => true
  | _ :: _, [] => false
  | a :: p', b :: s' => (a =? b) && startswith s' p'
  end.

(** [s.endswith(p)] *)
Definition endswith (s p : str) : bool := startswith (rev s) (rev p).

(** [s.count(c)] for a one-character [c]. *)
Fixpoint count (s : str) (c : char) : nat :=
  match s with
  | [] => 0%nat
  | x :: r => if x =? c then S (count r c) else count r c
  end.

(** [p in s] *)
Fixpoint contains (p s : str) : bool :=
  startswith s p ||
  match s with
  | [] => false
  | _ :: r => contains p r
  end.

(** [s.replace(a, b)] for one-character [a] and [b]. *)
Definition replace (s : str) (a b : char) : str :=
  map (fun c => if c =? a then b else c) s.

(** [str(n)] for a natural number. *)
Definition of_nat (n : nat) : str :=
  py (NilEmpty.string_of_uint (Nat.to_uint n)).

(** [sep.join(parts)] *)
Fixpoint join (sep : str) (parts : list str) : str :=
  match parts with
  | [] => []
  | [p] => p
  | p :: rest => p ++ sep ++ join sep rest
  end.

(** A string with no white space at either end. *)
Definition head_ok (s : str) : bool :=
  match s with
  | [] => true
  | c :: _ => negb (isspace c)
  end.

End Py.
Import Py.

(** ** Python floats and the values a JSON document parses to *)

(** [float(z)] for an [int]: the nearest binary64 number, ties to even;
    [None] stands for [OverflowError] ("int too large to convert to
    float"). *)
Definition float_of_int (z : Z) : option float :=
  match binary_normalize prec emax z 0 false with
  | S754_infinity _ => None
  | sf => Some (SF2Prim sf)
  end.

(** The builtin [min(a, b)] and [max(a, b)] on two floats: the first
    argument is kept unless the second compares strictly below (above). *)
Definition py_min (a b : float) : float := if (b <? a)%float then b else a.
Definition py_max (a b : float) : float := if (a <? b)%float then b else a.

Inductive pyval :=
| PNone
| PBool (b : bool)
| PInt (z : Z)
| PFloat (f : float)
| PStr (s : str)
| PList (l : list pyval)
| PDict (d : gmap str pyval).

(** [bool(v)] *)
Definition truthy (v : pyval) : bool :=
  match v with
  | PNone => false
  | PBool b => b
  | PInt z => negb (z =? 0)%Z
  | PFloat f => negb (f =? 0)%float
  | PStr s => negb (Nat.eqb (length s) 0)
  | PList l => negb (Nat.eqb (length l) 0)
  | PDict d => negb (Nat.eqb (size d) 0)
  end.

(** [isinstance(v, list)] *)
Definition is_list (v : pyval) : bool :=
  match v with PList _ => true | _ => false end.

(** [len(v)] where the code has already checked [v] to be a list. *)
Definition len (v : pyval) : nat :=
  match v with PList l => length l | _ => 0%nat end.

Definition str_eqb (a b : str) : bool := bool_decide (a = b).

(** [v in ls] for a list [ls] of strings: equality with an element. *)
Definition in_strs (v : pyval) (ls : list str) : bool :=
  match v with
  | PStr s => existsb (str_eqb s) ls
  | _ => false
  end.

(** ** Exceptions *)

Inductive exc_class :=
| JSONDecodeError
| AttributeError
| TypeError
| ValueError
| OverflowError
| ValidationError      (* pydantic *)
| PlainException       (* [Exception(...)] raised by the service itself *)
| ExternalError.       (* any other class, raised by the generation client *)

Record exn := Exn { exc_type : exc_class; exc_msg : str }.

(** A computation that returns or raises. *)
Definition result (A : Type) : Type := exn + A.

#[global] Instance result_ret : MRet result := fun A a => inr a.
#[global] Instance result_bind : MBind result := fun A B k r =>
  match r with
  | inl e => inl e
  | inr a => k a
  end.

Definition raise {A} (c : exc_class) (msg : str) : result A :=
  inl (Exn c msg).

(** ** The models of [app/models.py] *)

Inductive RiskLevel := LOW | MEDIUM | HIGH.

Definition RiskLevel_value (r : RiskLevel) : str :=
  match r with
  | LOW => py "Low"
  | MEDIUM => py "Medium"
  | HIGH => py "High"
  end.

(** The fields of one supplier as they arrive in the request body. *)
Record SupplierData := {
  raw_supplier_name : str;
  raw_annual_spend_usd : float;
  raw_on_time_delivery_pct : float;
  raw_contract_expiry_months : Z;
  raw_single_source_dependency : bool;
  raw_region : str }.

Record RequestBody := {
  raw_category : str;
  raw_suppliers : list SupplierData }.

(** Validated instances. *)
Record SupplierInput := {
  supplier_name : str;
  annual_spend_usd : float;
  on_time_delivery_pct : float;
  contract_expiry_months : Z;
  single_source_dependency : bool;
  region : str }.

Record InsightsRequest := {
  category : str;
  suppliers : list SupplierInput }.

Record InsightsResponse := {
  resp_category : str;
  overall_risk_level : RiskLevel;
  key_risks : list str;
  negotiation_levers : list str;
  recommended_actions_next_90_days : list str;
  confidence_score : float }.

(** What a field validator can object to. *)
Inductive issue :=
| MinLength            (* [min_length=1] *)
| MinItems             (* [min_items=1] *)
| NotGt0               (* [gt=0] *)
| NotGe0               (* [ge=0] *)
| NotLe100             (* [le=100] *)
| NotLe1               (* [le=1] *)
| Missing
| WrongType
| Raised (msg : str).  (* [ValueError(msg)] of a [@validator] *)

Inductive loc_item := LName (s : str) | LIndex (i : nat).

Definition field_error : Type := list loc_item * issue.

(** ** HTTP outcomes *)

Inductive body :=
| Insights (r : InsightsResponse)
| Detail (d : str)
| ValidationDetails (details : list str).

Record http_response := { status_code : N; content : body }.

(** ** What the repository calls but does not contain *)

Record Externals := {
  (** [json.loads]: the parsed value, or the message of its
      [JSONDecodeError]. *)
  json_loads : str -> str + pyval;
  (** [model.generate_content(prompt)]: raises, or gives a response
      whose [.text] accessor raises or yields the text. *)
  generate_content : str -> result (result str);
  (** [float(s)] on a string; [None] is [ValueError]. *)
  float_of_str : str -> option float;
  (** The interpreter's message for a builtin error on a value. *)
  builtin_msg : exc_class -> pyval -> str;
  (** [json.dumps([s.dict() for s in suppliers], indent=2)] *)
  json_dumps_suppliers : list SupplierInput -> str;
  (** pydantic: message of an issue, coercion of a value to [str], text
      of a [ValidationError]. *)
  pydantic_msg : issue -> str;
  pydantic_str : pyval -> option str;
  validation_error_text : list field_error -> str }.

(** ** [app/models.py]: validation of the request *)

(** [validate_non_empty_string] and [validate_category]: both reject a
    blank value and return the value stripped. *)
Definition validate_non_empty_string (v : str) : issue + str :=
  if Nat.eqb (length v) 0 || Nat.eqb (length (strip v)) 0
  then inl (Raised (py "Field cannot be empty or whitespace only"))
  else inr (strip v).

Definition validate_category (v : str) : issue + str :=
  if Nat.eqb (length v) 0 || Nat.eqb (length (strip v)) 0
  then inl (Raised (py "Category cannot be empty or whitespace only"))
  else inr (strip v).

(** [Field(..., min_length=1)] followed by the field's [@validator]. *)
Definition min_length_1 (validator : str -> issue + str) (v : str) : issue + str :=
  if (length v <? 1)%nat then inl MinLength else validator v.

(** [Field(..., gt=0)] *)
Definition check_gt0 (v : float) : issue + float :=
  if (0 <? v)%float then inr v else inl NotGt0.

(** [Field(..., ge=0, le=100)] *)
Definition check_pct (v : float) : issue + float :=
  if negb (0 <=? v)%float then inl NotGe0
  else if negb (v <=? 100)%float then inl NotLe100
  else inr v.

(** [Field(..., ge=0)] on an [int]. *)
Definition check_ge0 (v : Z) : issue + Z :=
  if (0 <=? v)%Z then inr v else inl NotGe0.

(** The errors of one field, located. *)
Definition errors_at {A} (loc : list loc_item) (r : issue + A) : list field_error :=
  match r with
  | inl i => [(loc, i)]
  | inr _ => []
  end.

(** Construction of a [SupplierInput]: every field is validated, the errors are
    aggregated, and an instance exists only when there is none. *)
Definition SupplierInput_validate (loc : list loc_item) (d : SupplierData)
  : list field_error + SupplierInput :=
  let name := min_length_1 validate_non_empty_string (raw_supplier_name d) in
  let spend := check_gt0 (raw_annual_spend_usd d) in
  let pct := check_pct (raw_on_time_delivery_pct d) in
  let months := check_ge0 (raw_contract_expiry_months d) in
  let reg := min_length_1 validate_non_empty_string (raw_region d) in
  match name, spend, pct, months, reg with
  | inr n, inr s, inr p, inr m, inr r =>
      inr {| supplier_name := n; annual_spend_usd := s;
             on_time_delivery_pct := p; contract_expiry_months := m;
             single_source_dependency := raw_single_source_dependency d;
             region := r |}
  | _, _, _, _, _ =>
      inl (errors_at (loc ++ [LName (py "supplier_name")]) name
           ++ errors_at (loc ++ [LName (py "annual_spend_usd")]) spend
           ++ errors_at (loc ++ [LName (py "on_time_delivery_pct")]) pct
           ++ errors_at (loc ++ [LName (py "contract_expiry_months")]) months
           ++ errors_at (loc ++ [LName (py "region")]) reg)
  end.

(** The items of [suppliers: List[SupplierInput]], each at its index. *)
Fixpoint suppliers_validate (idx : nat) (ds : list SupplierData)
  : list field_error + list SupplierInput :=
  match ds with
  | [] => inr []
  | d :: rest =>
      match SupplierInput_validate [LName (py "suppliers"); LIndex idx] d,
            suppliers_validate (S idx) rest with
      | inr s, inr ss => inr (s :: ss)
      | inl e, inr _ => inl e
      | inr _, inl es => inl es
      | inl e, inl es => inl (e ++ es)
      end
  end.

(** Construction of an [InsightsRequest] from the request body. *)
Definition InsightsRequest_validate (b : RequestBody)
  : list field_error + InsightsRequest :=
  let cat := min_length_1 validate_category (raw_category b) in
  let sups :=
    if (length (raw_suppliers b) <? 1)%nat
    then inl [([LName (py "suppliers")], MinItems)]
    else suppliers_validate 0 (raw_suppliers b) in
  match cat, sups with
  | inr c, inr ss => inr {| category := c; suppliers := ss |}
  | _, _ =>
      inl (errors_at [LName (py "category")] cat
           ++ match sups with inl es => es | inr _ => [] end)
  end.

(** ** [app/llm_service.py] *)

Definition _build_system_prompt : str := lines [
    "You are a procurement analytics expert specializing in supplier risk assessment and sourcing strategy for manufacturing companies.";
    "";
    "Your task is to analyze supplier data and generate actionable insights for procurement executives.";
    "";
    "CRITICAL REQUIREMENTS:";
    "1. You must respond ONLY with valid JSON matching the exact schema provided";
    "2. No explanatory text before or after the JSON";
    "3. No markdown formatting or code blocks";
    "4. All risk assessments must be data-driven and based on the input metrics";
    "5. Focus on actionable, executive-level insights suitable for mobile dashboards";
    "";
    "ANALYSIS FRAMEWORK:";
    "- Assess concentration risk (single source dependencies, spend distribution)";
    "- Evaluate delivery performance and operational risk";
    "- Identify contract timing urgencies (expiring within 6 months = high priority)";
    "- Consider geographic diversification";
    "- Generate concrete, time-bound action items" ].

Definition user_prompt_head : str := lines [
    "Analyze the following procurement data and generate structured insights.";
    "";
    "CATEGORY: " ].

Definition user_prompt_mid : str := lines [
    "";
    "";
    "SUPPLIER DATA:";
    "" ].

Definition user_prompt_tail : str := lines [
    "";
    "";
    "Generate a JSON response with this EXACT structure:";
    "{";
    "  'category': 'string (the category name)',";
    "  'overall_risk_level': 'Low OR Medium OR High',";
    "  'key_risks': ['risk 1', 'risk 2', 'risk 3'],";
    "  'negotiation_levers': ['lever 1', 'lever 2', 'lever 3'],";
    "  'recommended_actions_next_90_days': ['action 1', 'action 2', 'action 3'],";
    "  'confidence_score': 0.XX";
    "}";
    "";
    "SCORING GUIDELINES:";
    "- overall_risk_level: 'High' if single-source dependency exists OR contracts expiring within 3 months OR delivery performance < 90%";
    "- overall_risk_level: 'Medium' if moderate concerns (contracts 3-6 months, delivery 90-95%, concentrated spend)";
    "- overall_risk_level: 'Low' if well-diversified, strong performance, adequate contract runway";
    "- key_risks: Must identify 3-5 specific risks based on data (concentration, timing, performance, geographic)";
    "- negotiation_levers: Must identify 3-5 specific leverage points (competitive alternatives, volume, contract timing, performance gaps)";
    "- recommended_actions_next_90_days: Must provide 3-5 concrete, time-bound actions prioritized by urgency";
    "";
    "Calculate confidence_score based on these factors:";
    "- Start with base 0.85 (we have complete, structured data)";
    "- Deduct 0.05 if only 1-2 suppliers (limited comparison basis)";
    "- Deduct 0.05 if any data appears inconsistent or unclear";
    "- Deduct 0.10 if analysis requires significant assumptions";
    "- Add 0.05 if there are clear, unambiguous risk signals";
    "";
    "Typical ranges:";
    "- 0.90-0.95: Complete data, 3+ suppliers, clear patterns";
    "- 0.80-0.89: Good data quality, some minor gaps or ambiguity";
    "- 0.70-0.79: Acceptable data, but requires some assumptions";
    "";
    "For this specific dataset with 3 suppliers and complete fields, confidence should be 0.85-0.92.";
    "";
    "IMPORTANT: Ensure your JSON is complete and properly closed. Do not truncate the response.";
    "";
    "Respond with ONLY the JSON object, no other text." ].

(** Lines 107-112 of [LLMService.generate_insights]: the truncation
    heuristic, on the stripped response text. *)
Definition fix_truncation (response_text : str) : str :=
  if negb (endswith response_text (py "}")) then
    let open_braces := count response_text 123 in
    let close_braces := count response_text 125 in
    if (close_braces <? open_braces)%nat
    then response_text ++ replicate (open_braces - close_braces) 125
    else response_text
  else response_text.

Definition _clean_json_response (text : str) : str :=
  let text := strip text in
  let text :=
    if startswith text (py "```json") then drop 7 text
    else if startswith text (py "```") then drop 3 text
    else text in
  let text :=
    if endswith text (py "```") then take (length text - 3) text else text in
  strip text.

(** The text handed to [json.loads], from the raw text of the response. *)
Definition repair_text (raw : str) : str :=
  _clean_json_response (fix_truncation (strip raw)).

(** The order the specification describes, for comparison: fences are
    stripped first and the truncation heuristic is applied last. *)
Definition repair_text_fences_first (raw : str) : str :=
  fix_truncation (_clean_json_response (strip raw)).

(** The message of the exception the service raises in place of [e]. *)
Definition wrap_message (e : exn) : str :=
  match exc_type e with
  | JSONDecodeError => py "Failed to parse LLM response as JSON: " ++ exc_msg e
  | AttributeError => py "Error accessing response attributes: " ++ exc_msg e
  | _ => py "Error generating insights: " ++ exc_msg e
  end.

(** [validate_non_empty_lists] of [InsightsResponse]. *)
Definition validate_non_empty_lists (v : list str) : issue + list str :=
  if Nat.eqb (length v) 0 then inl (Raised (py "List cannot be empty"))
  else if existsb (fun item => Nat.eqb (length item) 0
                               || Nat.eqb (length (strip item)) 0) v
  then inl (Raised (py "List items cannot be empty or whitespace only"))
  else inr (map strip v).

Definition risk_of_str (s : str) : option RiskLevel :=
  if str_eqb s (py "Low") then Some LOW
  else if str_eqb s (py "Medium") then Some MEDIUM
  else if str_eqb s (py "High") then Some HIGH
  else None.

Definition list_fields : list str :=
  [py "key_risks"; py "negotiation_levers"; py "recommended_actions_next_90_days"].

Section Service.

Context (X : Externals).

(** [float(v)] *)
Definition py_float (v : pyval) : result float :=
  match v with
  | PBool b => mret (if b then 1%float else 0%float)
  | PInt z =>
      match float_of_int z with
      | Some f => mret f
      | None => raise OverflowError (builtin_msg X OverflowError v)
      end
  | PFloat f => mret f
  | PStr s =>
      match float_of_str X s with
      | Some f => mret f
      | None => raise ValueError (builtin_msg X ValueError v)
      end
  | PNone | PList _ | PDict _ => raise TypeError (builtin_msg X TypeError v)
  end.

Definition _build_user_prompt (request : InsightsRequest) : str :=
  let suppliers_json := json_dumps_suppliers X (suppliers request) in
  user_prompt_head ++ category request ++ user_prompt_mid
    ++ suppliers_json ++ user_prompt_tail.

Definition full_prompt (request : InsightsRequest) : str :=
  _build_system_prompt ++ nl ++ nl ++ _build_user_prompt request.

(** One turn of the loop over the three list fields. *)
Definition fix_list_field (data : gmap str pyval) (list_field : str)
  : gmap str pyval :=
  let placeholder :=
    PList [PStr (py "Analysis pending for " ++ replace list_field 95 32)] in
  match data !! list_field with
  | None => <[list_field := placeholder]> data
  | Some v =>
      if negb (is_list v) || Nat.eqb (len v) 0
      then <[list_field := placeholder]> data
      else data
  end.

Definition fix_category (data : gmap str pyval) (category : str)
  : gmap str pyval :=
  match data !! py "category" with
  | None => <[py "category" := PStr category]> data
  | Some v =>
      if negb (truthy v) then <[py "category" := PStr category]> data else data
  end.

Definition fix_risk_level (data : gmap str pyval) : gmap str pyval :=
  match data !! py "overall_risk_level" with
  | None => <[py "overall_risk_level" := PStr (py "Medium")]> data
  | Some risk_level =>
      if negb (in_strs risk_level [py "Low"; py "Medium"; py "High"])
      then <[py "overall_risk_level" := PStr (py "Medium")]> data
      else data
  end.

Definition fix_confidence_score (data : gmap str pyval)
  : result (gmap str pyval) :=
  match data !! py "confidence_score" with
  | None => mret (<[py "confidence_score" := PFloat 0.85]> data)
  | Some v =>
      score ← py_float v;
      mret (<[py "confidence_score" :=
                PFloat (py_max 0.70 (py_min 0.98 score))]> data)
  end.

(** The four blocks of [_validate_and_fix_response], in order. *)
Definition _validate_and_fix_response (data : gmap str pyval) (category : str)
  : result (gmap str pyval) :=
  let data := fix_category data category in
  let data := fix_risk_level data in
  let data := foldl fix_list_field data list_fields in
  fix_confidence_score data.

(** Construction of an [InsightsResponse] from the sanitized mapping:
    pydantic validates every field and raises one [ValidationError]. *)
Definition field_category (data : gmap str pyval) : issue + str :=
  match data !! py "category" with
  | None => inl Missing
  | Some v =>
      match pydantic_str X v with
      | Some s => inr s
      | None => inl WrongType
      end
  end.

Definition field_risk_level (data : gmap str pyval) : issue + RiskLevel :=
  match data !! py "overall_risk_level" with
  | None => inl Missing
  | Some (PStr s) =>
      match risk_of_str s with
      | Some r => inr r
      | None => inl WrongType
      end
  | Some _ => inl WrongType
  end.

Definition field_str_list (data : gmap str pyval) (key : str)
  : issue + list str :=
  match data !! key with
  | None => inl Missing
  | Some (PList l) =>
      match mapM (pydantic_str X) l with
      | None => inl WrongType
      | Some items =>
          if (length items <? 1)%nat then inl MinItems
          else validate_non_empty_lists items
      end
  | Some _ => inl WrongType
  end.

Definition field_confidence_score (data : gmap str pyval) : issue + float :=
  match data !! py "confidence_score" with
  | None => inl Missing
  | Some v =>
      match py_float v with
      | inl _ => inl WrongType
      | inr f =>
          if negb (0 <=? f)%float then inl NotGe0
          else if negb (f <=? 1)%float then inl NotLe1
          else inr f
      end
  end.

Definition InsightsResponse_new (data : gmap str pyval)
  : result InsightsResponse :=
  let c := field_category data in
  let r := field_risk_level data in
  let k := field_str_list data (py "key_risks") in
  let n := field_str_list data (py "negotiation_levers") in
  let a := field_str_list data (py "recommended_actions_next_90_days") in
  let s := field_confidence_score data in
  match c, r, k, n, a, s with
  | inr c, inr r, inr k, inr n, inr a, inr s =>
      mret {| resp_category := c; overall_risk_level := r; key_risks := k;
              negotiation_levers := n;
              recommended_actions_next_90_days := a; confidence_score := s |}
  | _, _, _, _, _, _ =>
      raise ValidationError
        (validation_error_text X
           (errors_at [LName (py "category")] c
            ++ errors_at [LName (py "overall_risk_level")] r
            ++ errors_at [LName (py "key_risks")] k
            ++ errors_at [LName (py "negotiation_levers")] n
            ++ errors_at [LName (py "recommended_actions_next_90_days")] a
            ++ errors_at [LName (py "confidence_score")] s))
  end.

(** Lines 116-120: parse, sanitize, construct.  Anything but a mapping
    makes the sanitizer raise [TypeError] at its first subscript. *)
Definition parse_and_build (response_text category : str)
  : result InsightsResponse :=
  match json_loads X response_text with
  | inl msg => raise JSONDecodeError msg
  | inr (PDict response_data) =>
      response_data ← _validate_and_fix_response response_data category;
      InsightsResponse_new response_data
  | inr v => raise TypeError (builtin_msg X TypeError v)
  end.

(** [LLMService.generate_insights]: the body of the [try], then the
    three [except] clauses, which all raise a plain [Exception].  The
    second component counts the calls to the generation service. *)
Definition LLMService_generate_insights (request : InsightsRequest)
  (calls : nat) : result InsightsResponse * nat :=
  let tried :=
    response ← generate_content X (full_prompt request);
    text ← response;
    parse_and_build (repair_text text) (category request) in
  match tried with
  | inr insights_response => (inr insights_response, S calls)
  | inl e => (raise PlainException (wrap_message e), S calls)
  end.

(** ** [app/main.py] *)

(** The loop over [enumerate(request.suppliers)]: the detail of the first
    [HTTPException] raised, if any. *)
Fixpoint check_suppliers (idx : nat) (ss : list SupplierInput) : option str :=
  match ss with
  | [] => None
  | supplier :: rest =>
      if Nat.eqb (length (supplier_name supplier)) 0
         || Nat.eqb (length (strip (supplier_name supplier))) 0
      then Some (py "Supplier at index " ++ of_nat idx
                 ++ py " has an empty or invalid name.")
      else if (annual_spend_usd supplier <=? 0)%float
      then Some (py "Supplier '" ++ supplier_name supplier
                 ++ py "' has invalid annual spend (must be > 0).")
      else if negb ((0 <=? on_time_delivery_pct supplier)%float
                    && (on_time_delivery_pct supplier <=? 100)%float)
      then Some (py "Supplier '" ++ supplier_name supplier
                 ++ py "' has invalid delivery percentage (must be 0-100).")
      else if (contract_expiry_months supplier <? 0)%Z
      then Some (py "Supplier '" ++ supplier_name supplier
                 ++ py "' has invalid contract expiry months (must be >= 0).")
      else check_suppliers (S idx) rest
  end.

(** The checks of lines 63-92. *)
Definition manual_checks (request : InsightsRequest) : option str :=
  if Nat.eqb (length (suppliers request)) 0
  then Some (py "Supplier list cannot be empty. At least one supplier is required.")
  else check_suppliers 0 (suppliers request).

(** The [except] clauses of the handler, lines 105-129. *)
Definition handle_exception (e : exn) : http_response :=
  match exc_type e with
  | ValidationError =>
      {| status_code := 422;
         content := Detail (py "Data validation failed: " ++ exc_msg e) |}
  | _ =>
      if contains (py "API") (exc_msg e)
      then {| status_code := 503;
              content := Detail (py "LLM service is currently unavailable. Please try again later.") |}
      else if contains (py "JSON") (exc_msg e)
      then {| status_code := 500;
              content := Detail (py "Failed to parse LLM response. Please contact support.") |}
      else {| status_code := 500;
              content := Detail (py "An error occurred while generating insights: "
                                 ++ exc_msg e) |}
  end.

(** The handler of [POST /generate-insights]. *)
Definition generate_insights (request : InsightsRequest) (calls : nat)
  : http_response * nat :=
  match manual_checks request with
  | Some detail => ({| status_code := 422; content := Detail detail |}, calls)
  | None =>
      match LLMService_generate_insights request calls with
      | (inr insights, calls') =>
          ({| status_code := 200; content := Insights insights |}, calls')
      | (inl e, calls') => (handle_exception e, calls')
      end
  end.

Definition loc_str (l : loc_item) : str :=
  match l with
  | LName s => s
  | LIndex i => of_nat i
  end.

Definition validation_exception_handler (errors : list field_error)
  : http_response :=
  {| status_code := 422;
     content := ValidationDetails
       (map (fun '(loc, i) =>
               join (py " -> ") (map loc_str (LName (py "body") :: loc))
               ++ py ": " ++ pydantic_msg X i) errors) |}.

(** The route as the framework runs it: the body is validated into an
    [InsightsRequest] first, and the handler runs only on success. *)
Definition post_generate_insights (b : RequestBody) (calls : nat)
  : http_response * nat :=
  match InsightsRequest_validate b with
  | inl errors => (validation_exception_handler errors, calls)
  | inr request => generate_insights request calls
  end.

End Service.

(** ** The defects of a request body that the specification lists *)

Definition is_blank (s : str) : bool := Nat.eqb (length (strip s)) 0.

Definition supplier_invalid (d : SupplierData) : bool :=
  is_blank (raw_supplier_name d)
  || (raw_annual_spend_usd d <=? 0)%float
  || negb ((0 <=? raw_on_time_delivery_pct d)%float
           && (raw_on_time_delivery_pct d <=? 100)%float)
  || (raw_contract_expiry_months d <? 0)%Z.

Definition request_invalid (b : RequestBody) : bool :=
  is_blank (raw_category b)
  || Nat.eqb (length (raw_suppliers b)) 0
  || existsb supplier_invalid (raw_suppliers b).

Definition fence : str := py "```".

(** ** What validation accepts, and what it turns a body into *)

Definition supplier_ok (d : SupplierData) : bool :=
  negb (is_blank (raw_supplier_name d))
  && (0 <? raw_annual_spend_usd d)%float
  && (0 <=? raw_on_time_delivery_pct d)%float
  && (raw_on_time_delivery_pct d <=? 100)%float
  && (0 <=? raw_contract_expiry_months d)%Z
  && negb (is_blank (raw_region d)).

Definition body_ok (b : RequestBody) : bool :=
  negb (is_blank (raw_category b))
  && (1 <=? length (raw_suppliers b))%nat
  && forallb supplier_ok (raw_suppliers b).

Definition normalize_supplier (d : SupplierData) : SupplierInput :=
  {| supplier_name := strip (raw_supplier_name d);
     annual_spend_usd := raw_annual_spend_usd d;
     on_time_delivery_pct := raw_on_time_delivery_pct d;
     contract_expiry_months := raw_contract_expiry_months d;
     single_source_dependency := raw_single_source_dependency d;
     region := strip (raw_region d) |}.

Definition normalize_body (b : RequestBody) : InsightsRequest :=
  {| category := strip (raw_category b);
     suppliers := map normalize_supplier (raw_suppliers b) |}.

(** The conditions under which the handler's loop lets a supplier pass. *)
Definition supplier_passes (s : SupplierInput) : bool :=
  negb (Nat.eqb (length (supplier_name s)) 0)
  && negb (Nat.eqb (length (strip (supplier_name s))) 0)
  && negb (annual_spend_usd s <=? 0)%float
  && ((0 <=? on_time_delivery_pct s)%float
      && (on_time_delivery_pct s <=? 100)%float)
  && negb (contract_expiry_months s <? 0)%Z.

(** A text wrapped in a code fence, with or without the [json] tag. *)
Definition fenced (tag body : str) : str :=
  fence ++ tag ++ nl ++ body ++ nl ++ fence.

(** A value that the loop over the list fields leaves alone. *)
Definition is_nonempty_list (o : option pyval) : bool :=
  match o with
  | Some (PList (_ :: _)) => true
  | _ => false
  end.

(** The list invariant of [InsightsResponse]: at least one item, every
    item non-empty and without white space at either end. *)
Definition well_formed_items (l : list str) : Prop :=
  l <> [] /\ Forall (fun item => item <> [] /\ strip item = item) l.

(** The keys [_validate_and_fix_response] writes. *)
Definition sanitized_keys : list str :=
  [py "category"; py "overall_risk_level"; py "confidence_score"] ++ list_fields.

(** ** Sample collaborators, for the concrete runs *)

Definition sample_response : gmap str pyval :=
  <[py "category" := PStr (py "Steel")]>
  (<[py "overall_risk_level" := PStr (py "Extreme")]>
  (<[py "key_risks" := PList [PStr (py "single source")]]>
  (<[py "negotiation_levers" := PList [PStr (py "volume")]]>
  (<[py "recommended_actions_next_90_days" := PList [PStr (py "rebid")]]>
  (<[py "confidence_score" := PFloat 1.5]> ∅))))).

Definition sample_response_text : str :=
  pyq "{'category': 'Steel', 'overall_risk_level': 'Extreme', 'key_risks': ['single source'], 'negotiation_levers': ['volume'], 'recommended_actions_next_90_days': ['rebid'], 'confidence_score': 1.5}".

(** A parser that knows three documents and rejects every other text. *)
Definition sample_documents : list (str * pyval) :=
  [ (pyq "{'a': 1}", PDict (<[py "a" := PInt 1]> ∅));
    (pyq "{'confidence_score': null}",
     PDict (<[py "confidence_score" := PNone]> ∅));
    (sample_response_text, PDict sample_response) ].

Definition sample_json_loads (text : str) : str + pyval :=
  match List.find (fun d => str_eqb (fst d) text) sample_documents with
  | Some d => inr (snd d)
  | None => inl (py "Expecting value: line 1 column 1 (char 0)")
  end.

Definition sample_externals (gen : str -> result (result str)) : Externals :=
  {| json_loads := sample_json_loads;
     generate_content := gen;
     float_of_str := fun _ => None;
     builtin_msg := fun _ _ => py "unsupported operand";
     json_dumps_suppliers := fun _ => py "[]";
     pydantic_msg := fun _ => py "value is not valid";
     pydantic_str := fun v => match v with PStr s => Some s | _ => None end;
     validation_error_text := fun _ => py "validation error for InsightsResponse" |}.

Definition sample_supplier : SupplierData :=
  {| raw_supplier_name := py " Acme ";
     raw_annual_spend_usd := 1000;
     raw_on_time_delivery_pct := 97.5;
     raw_contract_expiry_months := 2;
     raw_single_source_dependency := true;
     raw_region := py "EU" |}.

Definition sample_body : RequestBody :=
  {| raw_category := py "Steel"; raw_suppliers := [sample_supplier] |}.

Definition sample_request : InsightsRequest :=
  {| category := py "Steel";
     suppliers := [ {| supplier_name := py "Acme";
                       annual_spend_usd := 1000;
                       on_time_delivery_pct := 97.5;
                       contract_expiry_months := 2;
                       single_source_dependency := true;
                       region := py "EU" |} ] |}.

(** A generation service that answers with the sample document, one
    that times out, and one whose error message names the API. *)
Definition answering : str -> result (result str) :=
  fun _ => inr (inr sample_response_text).

Definition timing_out : str -> result (result str) :=
  fun _ => raise ExternalError (py "504 Deadline Exceeded").

Definition key_rejected : str -> result (result str) :=
  fun _ => raise ExternalError (py "400 API key not valid. Please pass a valid API key.").

Definition answering_null_score : str -> result (result str) :=
  fun _ => inr (inr (pyq "{'confidence_score': null}")).

(** The truncated text of the specification, and a fenced response that
    was cut inside its JSON object. *)
Definition truncated_example : str := pyq "{'a': 'b', 'c': [1,2".

Definition fenced_example : str :=
  lines ["```json"; "{'a': {'b': [1]"; "```"].

Definition empty_suppliers_body : RequestBody :=
  {| raw_category := py "Steel"; raw_suppliers := [] |}.

(** The sample document after sanitizing, and the response built
    from it. *)
Definition sample_sanitized : gmap str pyval :=
  <[py "confidence_score" := PFloat 0.98]>
  (<[py "overall_risk_level" := PStr (py "Medium")]> sample_response).

Definition sample_insights : InsightsResponse :=
  {| resp_category := py "Steel";
     overall_risk_level := MEDIUM;
     key_risks := [py "single source"];
     negotiation_levers := [py "volume"];
     recommended_actions_next_90_days := [py "rebid"];
     confidence_score := 0.98 |}.

Definition blank_category_body : RequestBody :=
  {| raw_category := py "  "; raw_suppliers := [sample_supplier] |}.

(** * Properties *)

(** ** Strings *)

Lemma lstrip_length (s : str) : (length (lstrip s) <= length s)%nat.
Proof.
  induction s as [|c r IH]; simpl; [lia|].
  destruct (isspace c); simpl; lia.
Qed.

Lemma lstrip_head_ok (s : str) : head_ok (lstrip s) = true.
Proof.
  induction s as [|c r IH]; simpl; [done|].
  destruct (isspace c) eqn:E; [done|]. simpl. by rewrite E.
Qed.

Lemma lstrip_id (s : str) : head_ok s = true -> lstrip s = s.
Proof.
  destruct s as [|c r]; simpl; [done|].
  by destruct (isspace c).
Qed.

Lemma lstrip_same_length (s : str) :
  length (lstrip s) = length s -> lstrip s = s.
Proof.
  destruct s as [|c r]; simpl; [done|].
  destruct (isspace c); [|done].
  pose proof (lstrip_length r). lia.
Qed.

Lemma lstrip_suffix (s : str) : exists w, s = w ++ lstrip s.
Proof.
  induction s as [|c r [w IH]]; simpl; [by exists []|].
  destruct (isspace c).
  - exists (c :: w). simpl. by f_equal.
  - by exists [].
Qed.

Lemma head_ok_app_l (a b : str) : head_ok (a ++ b) = true -> head_ok a = true.
Proof. by destruct a. Qed.

Lemma head_ok_app_nonempty (a b : str) :
  a <> [] -> head_ok (a ++ b) = head_ok a.
Proof. by destruct a. Qed.

Lemma rstrip_head_ok (s : str) : head_ok s = true -> head_ok (rstrip s) = true.
Proof.
  intros H. unfold rstrip.
  destruct (lstrip_suffix (rev s)) as [w Hw].
  apply (f_equal (@rev N)) in Hw.
  rewrite rev_involutive, rev_app_distr in Hw.
  rewrite Hw in H. by apply head_ok_app_l in H.
Qed.

Lemma strip_fixed (s : str) :
  head_ok s = true -> head_ok (rev s) = true -> strip s = s.
Proof.
  intros H1 H2. unfold strip, rstrip.
  rewrite (lstrip_id s H1), (lstrip_id _ H2). apply rev_involutive.
Qed.

Lemma strip_fixed_inv (s : str) :
  strip s = s -> head_ok s = true /\ head_ok (rev s) = true.
Proof.
  intros H.
  assert (Hl : lstrip s = s).
  { apply lstrip_same_length.
    pose proof (lstrip_length s).
    pose proof (lstrip_length (rev (lstrip s))).
    apply (f_equal (@length N)) in H.
    unfold strip, rstrip in H. rewrite !length_rev in *. lia. }
  split.
  - rewrite <- Hl. apply lstrip_head_ok.
  - unfold strip, rstrip in H. rewrite Hl in H.
    apply (f_equal (@rev N)) in H. rewrite rev_involutive in H.
    rewrite <- H. apply lstrip_head_ok.
Qed.

Lemma strip_idempotent (s : str) : strip (strip s) = strip s.
Proof.
  apply strip_fixed.
  - unfold strip. apply rstrip_head_ok, lstrip_head_ok.
  - unfold strip, rstrip. rewrite rev_involutive. apply lstrip_head_ok.
Qed.

Lemma startswith_prefix (s p q : str) :
  startswith s (p ++ q) = true -> startswith s p = true.
Proof.
  revert s. induction p as [|a p IH]; intros s; simpl; [done|].
  destruct s as [|b s]; [done|].
  intros [-> H]%andb_true_iff. rewrite IH; [|done]. done.
Qed.

Lemma startswith_app_replicate (t p : str) (k : nat) (c : char) :
  existsb (N.eqb c) p = false ->
  startswith (t ++ replicate k c) p = startswith t p.
Proof.
  revert t. induction p as [|a p IH]; intros t Hc; simpl; [by destruct t|].
  simpl in Hc. apply orb_false_iff in Hc as [Hac Hp].
  destruct t as [|b t]; simpl.
  - destruct k as [|k]; simpl; [done|].
    by rewrite N.eqb_sym, Hac.
  - by rewrite IH.
Qed.

Lemma rev_app_replicate_S (t : str) (k : nat) (c : char) :
  rev (t ++ replicate (S k) c) = c :: rev (t ++ replicate k c).
Proof.
  rewrite replicate_S_end, app_assoc, rev_app_distr. done.
Qed.

Lemma count_app (a b : str) (c : char) :
  count (a ++ b) c = (count a c + count b c)%nat.
Proof.
  induction a as [|x a IH]; simpl; [done|].
  destruct (x =? c); simpl; lia.
Qed.

Lemma count_replicate (k : nat) (c d : char) :
  count (replicate k c) d = if c =? d then k else 0%nat.
Proof.
  induction k as [|k IH]; simpl; [by destruct (c =? d)|].
  rewrite IH. by destruct (c =? d).
Qed.

Lemma contains_app_r (p a b : str) :
  contains p b = true -> contains p (a ++ b) = true.
Proof.
  intros H. induction a as [|x a IH]; simpl; [done|].
  rewrite IH. apply orb_true_r.
Qed.

Lemma startswith_app_l (s t p : str) :
  startswith s p = true -> startswith (s ++ t) p = true.
Proof.
  revert s. induction p as [|a p IH]; intros s; simpl; [done|].
  destruct s as [|b s]; simpl; [done|].
  intros [-> H]%andb_true_iff. by rewrite IH.
Qed.

Lemma contains_app_l (p a b : str) :
  contains p a = true -> contains p (a ++ b) = true.
Proof.
  induction a as [|x a IH].
  - simpl. rewrite orb_false_r. intros H.
    destruct p; [by destruct b | discriminate].
  - intros H.
    change (contains p (x :: a))
      with (startswith (x :: a) p || contains p a) in H.
    change (contains p ((x :: a) ++ b))
      with (startswith ((x :: a) ++ b) p || contains p (a ++ b)).
    apply orb_true_iff in H as [H|H].
    + by rewrite (startswith_app_l _ b _ H).
    + rewrite IH; [|done]. apply orb_true_r.
Qed.

(** A pattern whose first character does not occur in [pre] cannot
    begin inside [pre]. *)
Lemma contains_skip (a : char) (p pre m : str) :
  existsb (N.eqb a) pre = false ->
  contains (a :: p) (pre ++ m) = contains (a :: p) m.
Proof.
  induction pre as [|x pre IH]; intros H; [done|].
  simpl in H. apply orb_false_iff in H as [Hx Hpre].
  change (contains (a :: p) ((x :: pre) ++ m))
    with (((a =? x) && startswith (pre ++ m) p) || contains (a :: p) (pre ++ m)).
  rewrite Hx. simpl. by apply IH.
Qed.

(** ** The text repair of [LLMService.generate_insights] *)

Lemma startswith_fence_json (t : str) :
  startswith t fence = false -> startswith t (py "```json") = false.
Proof.
  intros H. destruct (startswith t (py "```json")) eqn:E; [|done].
  change (py "```json") with (fence ++ py "json") in E.
  apply startswith_prefix in E. congruence.
Qed.

Lemma endswith_brace_not_fence (s : str) :
  endswith s (py "}") = true -> endswith s fence = false.
Proof.
  unfold endswith. change (rev (py "}")) with [125].
  change (rev fence) with [96; 96; 96].
  destruct (rev s) as [|c r]; [done|]. cbn [startswith].
  intros [Hc _]%andb_true_iff. apply N.eqb_eq in Hc as <-. done.
Qed.

Lemma fix_truncation_closed (s : str) :
  endswith s (py "}") = true -> fix_truncation s = s.
Proof. intros H. unfold fix_truncation. by rewrite H. Qed.

Lemma clean_trimmed_no_fence (t : str) :
  strip t = t -> startswith t fence = false -> endswith t fence = false ->
  _clean_json_response t = t.
Proof.
  intros Hs Hf He. unfold _clean_json_response. rewrite Hs.
  rewrite (startswith_fence_json t Hf).
  fold fence. by rewrite Hf, He.
Qed.

Lemma trimmed_app_braces (t : str) (k : nat) :
  t <> [] -> strip t = t ->
  strip (t ++ replicate (S k) 125) = t ++ replicate (S k) 125.
Proof.
  intros Hne [Hh _]%strip_fixed_inv. apply strip_fixed.
  - by rewrite head_ok_app_nonempty.
  - by rewrite rev_app_replicate_S.
Qed.

Lemma no_fence_app_braces (t : str) (k : nat) :
  startswith t fence = false ->
  startswith (t ++ replicate (S k) 125) fence = false
  /\ endswith (t ++ replicate (S k) 125) fence = false.
Proof.
  intros Hf. split.
  - by rewrite startswith_app_replicate.
  - unfold endswith. by rewrite rev_app_replicate_S.
Qed.

Lemma count_positive_nonempty (t : str) (c : char) :
  (0 < count t c)%nat -> t <> [].
Proof. destruct t; simpl; [lia | done]. Qed.

(** Without a fence in the trimmed text, stripping fences after the
    truncation heuristic changes nothing. *)
Lemma clean_fix_truncation (t : str) :
  strip t = t -> startswith t fence = false -> endswith t fence = false ->
  _clean_json_response (fix_truncation t) = fix_truncation t.
Proof.
  intros Hs Hf He. unfold fix_truncation.
  destruct (negb (endswith t (py "}"))); [|by apply clean_trimmed_no_fence].
  destruct (Nat.ltb_spec (count t 125) (count t 123)) as [Hlt|];
    [|by apply clean_trimmed_no_fence].
  destruct (Nat.sub (count t 123) (count t 125)) as [|k] eqn:Ek; [lia|].
  assert (t <> []) by (apply (count_positive_nonempty t 123); lia).
  destruct (no_fence_app_braces t k Hf).
  apply clean_trimmed_no_fence; [by apply trimmed_app_braces | done | done].
Qed.

(** When [k] final closing braces are all that is missing, the
    heuristic appends exactly [k]. *)
Lemma fix_truncation_deficit (t : str) (k : nat) :
  (1 <= k)%nat -> endswith t (py "}") = false ->
  count (t ++ replicate k 125) 123 = count (t ++ replicate k 125) 125 ->
  fix_truncation t = t ++ replicate k 125.
Proof.
  intros Hk He Hc. rewrite !count_app, !count_replicate in Hc. simpl in Hc.
  unfold fix_truncation. rewrite He. simpl.
  destruct (Nat.ltb_spec (count t 125) (count t 123)); [|lia].
  do 2 f_equal. lia.
Qed.

(** C8: on a trimmed text that carries no code fence and ends with its
    closing brace, the repair steps change nothing, so parsing the
    repaired text gives what parsing the original text gives. *)
Theorem repair_keeps_valid_json (X : Externals) (raw : str) :
  strip raw = raw ->
  startswith raw fence = false ->
  endswith raw (py "}") = true ->
  repair_text raw = raw
  /\ json_loads X (repair_text raw) = json_loads X raw.
Proof.
  intros Hs Hf He.
  assert (repair_text raw = raw) as ->; [|done].
  unfold repair_text. rewrite Hs, (fix_truncation_closed raw He).
  apply clean_trimmed_no_fence; [done | done |].
  by apply endswith_brace_not_fence.
Qed.

(** C4 (amended): when the trimmed, fence-free text [t] is a text [v]
    with as many opening as closing braces cut short of its [k >= 1]
    final closing braces, and [t] does not itself end with a closing
    brace, the heuristic appends exactly those [k] braces, the repaired
    text is [v], and it parses as [v] does.  For the text
    [{"a": "b", "c": [1,2] of the specification [k] is one. *)
Theorem truncation_repair_restores (X : Externals) (t v : str) (k : nat) :
  v = t ++ replicate k 125 ->
  (1 <= k)%nat ->
  count v 123 = count v 125 ->
  strip t = t ->
  startswith t fence = false ->
  endswith t fence = false ->
  endswith t (py "}") = false ->
  fix_truncation t = t ++ replicate k 125
  /\ repair_text t = v
  /\ json_loads X (repair_text t) = json_loads X v.
Proof.
  intros -> Hk Hc Hs Hf He Hb.
  pose proof (fix_truncation_deficit t k Hk Hb Hc) as Hfix.
  assert (repair_text t = t ++ replicate k 125) as ->; [|done].
  unfold repair_text. rewrite Hs, <- Hfix.
  by apply clean_fix_truncation.
Qed.

(** What the service hands to the parser: the response text trimmed,
    then put through the truncation heuristic, then through the fence
    strip.  With no fence marker at either end of the trimmed text the
    order of the last two steps makes no difference. *)
Theorem truncation_fix_precedes_fence_strip
  (X : Externals) (request : InsightsRequest) (calls : nat) (text : str) :
  generate_content X (full_prompt X request) = inr (inr text) ->
  fst (LLMService_generate_insights X request calls)
  = match parse_and_build X
            (_clean_json_response (fix_truncation (strip text)))
            (category request) with
    | inl e => raise PlainException (wrap_message e)
    | inr r => inr r
    end
  /\ (startswith (strip text) fence = false ->
      endswith (strip text) fence = false ->
      _clean_json_response (fix_truncation (strip text))
      = fix_truncation (_clean_json_response (strip text))).
Proof.
  intros Hgen. split.
  - unfold LLMService_generate_insights. rewrite Hgen. simpl.
    unfold repair_text. by destruct (parse_and_build _ _ _).
  - intros Hf He.
    rewrite (clean_fix_truncation (strip text));
      [|apply strip_idempotent|done|done].
    by rewrite (clean_trimmed_no_fence (strip text));
      [|apply strip_idempotent|done|done].
Qed.

(** ** Floats *)

Lemma float_ltb_leb (a b : float) :
  (a <? b)%float = true -> (a <=? b)%float = true.
Proof.
  rewrite FloatAxioms.ltb_spec, FloatAxioms.leb_spec. unfold SFltb, SFleb.
  by destruct (SFcompare (Prim2SF a) (Prim2SF b)) as [[]|].
Qed.

Lemma float_leb_cases (a b : float) :
  (a <=? b)%float = true -> (a <? b)%float = true \/ (a =? b)%float = true.
Proof.
  rewrite FloatAxioms.ltb_spec, FloatAxioms.leb_spec, FloatAxioms.eqb_spec. unfold SFltb, SFleb, SFeqb.
  destruct (SFcompare (Prim2SF a) (Prim2SF b)) as [[]|]; auto.
Qed.

Lemma float_gt0_not_le0 (x : float) :
  (0 <? x)%float = true -> (x <=? 0)%float = false.
Proof.
  rewrite FloatAxioms.ltb_spec, FloatAxioms.leb_spec.
  change (Prim2SF 0) with (S754_zero false).
  unfold SFltb, SFleb.
  by destruct (Prim2SF x) as [[]|[]| |[] ? ?].
Qed.

Lemma float_le0_not_gt0 (x : float) :
  (x <=? 0)%float = true -> (0 <? x)%float = false.
Proof.
  intros H. destruct (0 <? x)%float eqn:E; [|done].
  apply float_gt0_not_le0 in E. congruence.
Qed.

(** The clamp of [_validate_and_fix_response] lands in [0.70, 0.98] for
    every float, infinities and NaN included. *)
Lemma clamp_in_range (score : float) :
  (0.70 <=? py_max 0.70 (py_min 0.98 score))%float = true
  /\ (py_max 0.70 (py_min 0.98 score) <=? 0.98)%float = true.
Proof.
  unfold py_min, py_max.
  destruct (score <? 0.98)%float eqn:E1.
  - destruct (0.70 <? score)%float eqn:E2.
    + split; by apply float_ltb_leb.
    + by split.
  - by split.
Qed.

(** A score strictly inside the interval is left as it is. *)
Lemma clamp_inside (score : float) :
  (0.70 <? score)%float = true -> (score <? 0.98)%float = true ->
  py_max 0.70 (py_min 0.98 score) = score.
Proof. intros H1 H2. unfold py_min, py_max. by rewrite H2, H1. Qed.

(** ** The sanitizer [_validate_and_fix_response] *)

Ltac key_ne := let H := fresh in intros H; vm_compute in H; discriminate H.

Section Sanitizer.

Context (X : Externals).

Lemma fix_category_other (data : gmap str pyval) (category key : str) :
  key <> py "category" -> fix_category data category !! key = data !! key.
Proof.
  intros Hne. unfold fix_category.
  destruct (data !! py "category") as [v|]; [destruct (negb (truthy v))|];
    by rewrite ?lookup_insert_ne.
Qed.

Lemma fix_risk_level_other (data : gmap str pyval) (key : str) :
  key <> py "overall_risk_level" -> fix_risk_level data !! key = data !! key.
Proof.
  intros Hne. unfold fix_risk_level.
  destruct (data !! py "overall_risk_level") as [v|];
    [destruct (negb (in_strs v _))|]; by rewrite ?lookup_insert_ne.
Qed.

Lemma fix_risk_level_lookup (data : gmap str pyval) :
  fix_risk_level data !! py "overall_risk_level"
  = match data !! py "overall_risk_level" with
    | Some v =>
        if in_strs v [py "Low"; py "Medium"; py "High"] then Some v
        else Some (PStr (py "Medium"))
    | None => Some (PStr (py "Medium"))
    end.
Proof.
  unfold fix_risk_level.
  destruct (data !! py "overall_risk_level") as [v|] eqn:E.
  - destruct (in_strs v _); simpl; [done|]. by rewrite lookup_insert_eq.
  - by rewrite lookup_insert_eq.
Qed.

Lemma fix_list_field_other (data : gmap str pyval) (list_field key : str) :
  key <> list_field -> fix_list_field data list_field !! key = data !! key.
Proof.
  intros Hne. unfold fix_list_field.
  destruct (data !! list_field) as [v|];
    [destruct (negb (is_list v) || Nat.eqb (len v) 0)|];
    by rewrite ?lookup_insert_ne.
Qed.

Lemma fix_list_fields_other (fields : list str) (data : gmap str pyval)
  (key : str) :
  Forall (fun f => key <> f) fields ->
  foldl fix_list_field data fields !! key = data !! key.
Proof.
  revert data. induction fields as [|f fields IH]; intros data Hall; [done|].
  apply Forall_cons in Hall as [Hf Hall]. simpl.
  rewrite IH; [|done]. by apply fix_list_field_other.
Qed.

Lemma not_a_list_field (key : str) :
  key = py "overall_risk_level" \/ key = py "confidence_score" ->
  Forall (fun f => key <> f) list_fields.
Proof.
  intros [-> | ->]; repeat constructor; key_ne.
Qed.

Lemma fix_confidence_score_other (data data' : gmap str pyval) (key : str) :
  key <> py "confidence_score" ->
  fix_confidence_score X data = inr data' -> data' !! key = data !! key.
Proof.
  intros Hne. unfold fix_confidence_score.
  destruct (data !! py "confidence_score") as [v|].
  - destruct (py_float X v) as [e|score]; [done|].
    intros [= <-]. by rewrite lookup_insert_ne.
  - intros [= <-]. by rewrite lookup_insert_ne.
Qed.

(** The first three blocks leave the [confidence_score] key alone. *)
Lemma confidence_score_untouched (data : gmap str pyval) (category : str) :
  foldl fix_list_field (fix_risk_level (fix_category data category)) list_fields
    !! py "confidence_score"
  = data !! py "confidence_score".
Proof.
  rewrite fix_list_fields_other by (apply not_a_list_field; by right).
  rewrite fix_risk_level_other by key_ne.
  apply fix_category_other. key_ne.
Qed.

(** The sanitizer raises exactly when [float()] raises on the value at
    [confidence_score]. *)
Lemma sanitizer_raises_iff (data : gmap str pyval) (category : str) (e : exn) :
  _validate_and_fix_response X data category = inl e
  <-> exists v, data !! py "confidence_score" = Some v /\ py_float X v = inl e.
Proof.
  unfold _validate_and_fix_response, fix_confidence_score.
  rewrite confidence_score_untouched.
  destruct (data !! py "confidence_score") as [v|].
  - destruct (py_float X v) as [e'|score] eqn:E; simpl.
    + split; [intros [= ->]; eauto | intros (? & [= <-] & ?); congruence].
    + split; [done | intros (? & [= <-] & ?); congruence].
  - split; [done | by intros (? & ? & ?)].
Qed.

(** The value the sanitizer leaves at [confidence_score]. *)
Lemma sanitized_confidence_score (data data' : gmap str pyval) (category : str) :
  _validate_and_fix_response X data category = inr data' ->
  data' !! py "confidence_score"
  = match data !! py "confidence_score" with
    | None => Some (PFloat 0.85)
    | Some v =>
        match py_float X v with
        | inr score => Some (PFloat (py_max 0.70 (py_min 0.98 score)))
        | inl _ => None
        end
    end.
Proof.
  unfold _validate_and_fix_response, fix_confidence_score.
  rewrite confidence_score_untouched.
  destruct (data !! py "confidence_score") as [v|].
  - destruct (py_float X v) as [e'|score]; simpl; [done|].
    intros [= <-]. by rewrite lookup_insert_eq.
  - intros [= <-]. by rewrite lookup_insert_eq.
Qed.

(** The value the sanitizer leaves at [overall_risk_level]. *)
Lemma sanitized_risk_level (data data' : gmap str pyval) (category : str) :
  _validate_and_fix_response X data category = inr data' ->
  data' !! py "overall_risk_level"
  = match data !! py "overall_risk_level" with
    | Some v =>
        if in_strs v [py "Low"; py "Medium"; py "High"] then Some v
        else Some (PStr (py "Medium"))
    | None => Some (PStr (py "Medium"))
    end.
Proof.
  unfold _validate_and_fix_response. intros H.
  rewrite (fix_confidence_score_other _ _ (py "overall_risk_level")
             ltac:(key_ne) H).
  rewrite fix_list_fields_other by (apply not_a_list_field; by left).
  rewrite fix_risk_level_lookup.
  by rewrite fix_category_other by key_ne.
Qed.


End Sanitizer.

Lemma sanitizer_returns (X : Externals) (data : gmap str pyval) (category : str) :
  (forall v, data !! py "confidence_score" = Some v ->
             exists score, py_float X v = inr score) ->
  exists data', _validate_and_fix_response X data category = inr data'.
Proof.
  intros Hconv.
  destruct (_validate_and_fix_response X data category) as [e|data'] eqn:E;
    [|by eexists].
  apply sanitizer_raises_iff in E as (v & Hv & He).
  destruct (Hconv v Hv) as [score Hs]. congruence.
Qed.

(** An absent score becomes exactly 0.85. *)
Lemma confidence_score_default (X : Externals) (data : gmap str pyval)
  (category : str) :
  data !! py "confidence_score" = None ->
  exists data', _validate_and_fix_response X data category = inr data'
                /\ data' !! py "confidence_score" = Some (PFloat 0.85).
Proof.
  intros Hnone.
  destruct (sanitizer_returns X data category) as [data' Hd].
  { intros v Hv. congruence. }
  exists data'. split; [done|].
  by rewrite (sanitized_confidence_score X data data' category Hd), Hnone.
Qed.

(** A score that [float()] converts is clamped into [0.70, 0.98]. *)
Lemma confidence_score_clamped (X : Externals) (data : gmap str pyval)
  (category : str) (v : pyval) (score : float) :
  data !! py "confidence_score" = Some v ->
  py_float X v = inr score ->
  exists data' r,
    _validate_and_fix_response X data category = inr data'
    /\ data' !! py "confidence_score" = Some (PFloat r)
    /\ r = py_max 0.70 (py_min 0.98 score)
    /\ (0.70 <=? r)%float = true /\ (r <=? 0.98)%float = true.
Proof.
  intros Hv Hs.
  destruct (sanitizer_returns X data category) as [data' Hd].
  { intros v' Hv'. exists score. congruence. }
  exists data', (py_max 0.70 (py_min 0.98 score)).
  split; [done|]. split.
  - by rewrite (sanitized_confidence_score X data data' category Hd), Hv, Hs.
  - split; [done|]. apply clamp_in_range.
Qed.

(** The two runs the specification names: 1.5 becomes 0.98 and the
    integer -3 becomes 0.70. *)
Lemma confidence_score_examples (X : Externals) :
  (py_float X (PFloat 1.5) = inr 1.5%float
   /\ py_max 0.70 (py_min 0.98 1.5) = 0.98%float)
  /\ (py_float X (PInt (-3)) = inr (-3)%float
      /\ py_max 0.70 (py_min 0.98 (-3)) = 0.70%float).
Proof. repeat split. Qed.

(** C2: the sanitizer does fail as a whole on one bad field.  With
    [null] at [confidence_score], whatever the other keys hold, [float()]
    raises [TypeError] and the call raises with it. *)
Theorem sanitizer_raises_on_null_confidence
  (X : Externals) (data : gmap str pyval) (category : str) :
  _validate_and_fix_response X (<[py "confidence_score" := PNone]> data) category
  = raise TypeError (builtin_msg X TypeError PNone).
Proof.
  apply sanitizer_raises_iff. exists PNone.
  by rewrite lookup_insert_eq.
Qed.

(** C5: a score present as a number is not always clamped.  An integer
    beyond the binary64 range makes [float()] raise [OverflowError], and
    the sanitizer raises with it instead of storing 0.98. *)
Theorem sanitizer_raises_on_huge_confidence
  (X : Externals) (data : gmap str pyval) (category : str) :
  _validate_and_fix_response X
    (<[py "confidence_score" := PInt (10 ^ 400)]> data) category
  = raise OverflowError (builtin_msg X OverflowError (PInt (10 ^ 400))).
Proof.
  apply sanitizer_raises_iff. exists (PInt (10 ^ 400)).
  rewrite lookup_insert_eq. split; [done|].
  unfold py_float.
  assert (float_of_int (10 ^ 400) = None) as -> by (vm_compute; reflexivity).
  done.
Qed.

Lemma risk_of_str_value (r : RiskLevel) :
  risk_of_str (RiskLevel_value r) = Some r.
Proof. by destruct r. Qed.


(** ** Validation of the request, and the handler's own checks *)

Lemma length_strip_le (v : str) : (length (strip v) <= length v)%nat.
Proof.
  unfold strip, rstrip. rewrite length_rev.
  pose proof (lstrip_length (rev (lstrip v))).
  pose proof (lstrip_length v). rewrite length_rev in *. lia.
Qed.

Lemma validate_non_empty_string_inr (v s : str) :
  min_length_1 validate_non_empty_string v = inr s ->
  s = strip v /\ Nat.eqb (length (strip v)) 0 = false.
Proof.
  unfold min_length_1, validate_non_empty_string.
  destruct (length v <? 1)%nat; [done|].
  destruct (Nat.eqb (length v) 0); [done|].
  destruct (Nat.eqb (length (strip v)) 0); [done|].
  by intros [= <-].
Qed.

Lemma blank_rejected (validator : str -> issue + str) (v : str) :
  (validator = validate_non_empty_string \/ validator = validate_category) ->
  is_blank v = true ->
  exists i, min_length_1 validator v = inl i.
Proof.
  unfold is_blank, min_length_1. intros Hv Hb.
  destruct (length v <? 1)%nat; [by eexists|].
  destruct Hv as [-> | ->];
    unfold validate_non_empty_string, validate_category;
    rewrite Hb, orb_true_r; by eexists.
Qed.

(** What a validated supplier is known to satisfy. *)
Lemma SupplierInput_validate_inr (loc : list loc_item) (d : SupplierData)
  (s : SupplierInput) :
  SupplierInput_validate loc d = inr s ->
  (supplier_name s = strip (raw_supplier_name d)
   /\ annual_spend_usd s = raw_annual_spend_usd d
   /\ on_time_delivery_pct s = raw_on_time_delivery_pct d
   /\ contract_expiry_months s = raw_contract_expiry_months d)
  /\ Nat.eqb (length (strip (raw_supplier_name d))) 0 = false
  /\ (0 <? raw_annual_spend_usd d)%float = true
  /\ (0 <=? raw_on_time_delivery_pct d)%float = true
  /\ (raw_on_time_delivery_pct d <=? 100)%float = true
  /\ (0 <=? raw_contract_expiry_months d)%Z = true.
Proof.
  unfold SupplierInput_validate.
  destruct (min_length_1 validate_non_empty_string (raw_supplier_name d))
    as [|n] eqn:En; [done|].
  unfold check_gt0, check_pct, check_ge0.
  destruct (0 <? raw_annual_spend_usd d)%float eqn:Es; [|done].
  destruct (0 <=? raw_on_time_delivery_pct d)%float eqn:Ep1; [|done].
  destruct (raw_on_time_delivery_pct d <=? 100)%float eqn:Ep2; [|done].
  destruct (0 <=? raw_contract_expiry_months d)%Z eqn:Em; [|done].
  simpl.
  destruct (min_length_1 validate_non_empty_string (raw_region d)); [done|].
  intros [= <-]. simpl.
  apply validate_non_empty_string_inr in En as [-> ?]. done.
Qed.

Lemma SupplierInput_validate_invalid (loc : list loc_item) (d : SupplierData) :
  supplier_invalid d = true ->
  exists errors, SupplierInput_validate loc d = inl errors.
Proof.
  intros Hinv.
  destruct (SupplierInput_validate loc d) as [errors|s] eqn:E; [by eexists|].
  apply SupplierInput_validate_inr in E as (_ & Hn & Hs & Hp1 & Hp2 & Hm).
  exfalso. unfold supplier_invalid, is_blank in Hinv.
  rewrite Hn, (float_gt0_not_le0 _ Hs), Hp1, Hp2 in Hinv. simpl in Hinv.
  lia.
Qed.

Lemma suppliers_validate_invalid (idx : nat) (ds : list SupplierData) :
  existsb supplier_invalid ds = true ->
  exists errors, suppliers_validate idx ds = inl errors.
Proof.
  revert idx. induction ds as [|d ds IH]; intros idx; simpl; [done|].
  intros [Hd | Hds]%orb_true_iff.
  - destruct (SupplierInput_validate_invalid
                [LName (py "suppliers"); LIndex idx] d Hd) as [e ->].
    destruct (suppliers_validate (S idx) ds); by eexists.
  - destruct (IH (S idx) Hds) as [es ->].
    destruct (SupplierInput_validate _ d); by eexists.
Qed.

(** The handler's loop finds nothing to object to in validated
    suppliers, at whatever index it starts. *)
Lemma validated_suppliers_pass (ds : list SupplierData) :
  forall (idx idx' : nat) (ss : list SupplierInput),
    suppliers_validate idx ds = inr ss ->
    check_suppliers idx' ss = None /\ length ss = length ds.
Proof.
  induction ds as [|d ds IH]; intros idx idx' ss; simpl.
  - by intros [= <-].
  - destruct (SupplierInput_validate _ d) as [|s] eqn:Es;
      destruct (suppliers_validate (S idx) ds) as [|ss'] eqn:Ess; try done.
    intros [= <-].
    apply SupplierInput_validate_inr in Es
      as ((Hname & Hspend & Hpct & Hmonths) & Hn & Hs & Hp1 & Hp2 & Hm).
    destruct (IH (S idx) (S idx') ss' Ess) as [Hrest Hlen].
    split; [|simpl; by rewrite Hlen].
    cbn [check_suppliers].
    rewrite Hname, Hspend, Hpct, Hmonths, strip_idempotent, Hn.
    rewrite (float_gt0_not_le0 _ Hs), Hp1, Hp2. simpl.
    destruct (Z.ltb_spec (raw_contract_expiry_months d) 0); [lia|done].
Qed.

Lemma InsightsRequest_validate_inr (b : RequestBody) (request : InsightsRequest) :
  InsightsRequest_validate b = inr request ->
  category request = strip (raw_category b)
  /\ (1 <= length (raw_suppliers b))%nat
  /\ suppliers_validate 0 (raw_suppliers b) = inr (suppliers request).
Proof.
  unfold InsightsRequest_validate.
  destruct (min_length_1 validate_category (raw_category b)) as [|c] eqn:Ec;
    [done|].
  destruct (Nat.ltb_spec (length (raw_suppliers b)) 1); [done|].
  destruct (suppliers_validate 0 (raw_suppliers b)) as [|ss]; [done|].
  intros [= <-]. simpl. split; [|done].
  revert Ec. unfold min_length_1, validate_category.
  destruct (length (raw_category b) <? 1)%nat; [done|].
  destruct (_ || _); [done|]. by intros [= <-].
Qed.

Lemma InsightsRequest_validate_invalid (b : RequestBody) :
  request_invalid b = true ->
  exists errors, InsightsRequest_validate b = inl errors.
Proof.
  unfold request_invalid, InsightsRequest_validate.
  intros [[Hc | He]%orb_true_iff | Hs]%orb_true_iff.
  - destruct (blank_rejected validate_category (raw_category b)) as [i ->];
      [by right | done | by eexists].
  - apply Nat.eqb_eq in He. rewrite He. simpl.
    destruct (min_length_1 validate_category (raw_category b)); by eexists.
  - destruct (length (raw_suppliers b) <? 1)%nat.
    + destruct (min_length_1 validate_category (raw_category b)); by eexists.
    + destruct (suppliers_validate_invalid 0 _ Hs) as [es ->].
      destruct (min_length_1 validate_category (raw_category b)); by eexists.
Qed.

(** ** The handler *)

(** The service counts one call and raises nothing but a plain
    [Exception]. *)
Lemma service_calls_once (X : Externals) (request : InsightsRequest) (calls : nat) :
  snd (LLMService_generate_insights X request calls) = S calls.
Proof.
  unfold LLMService_generate_insights. by destruct (mbind _ _).
Qed.

Lemma service_raises_plain (X : Externals) (request : InsightsRequest)
  (calls : nat) (e : exn) :
  fst (LLMService_generate_insights X request calls) = inl e ->
  exc_type e = PlainException.
Proof.
  unfold LLMService_generate_insights.
  destruct (mbind _ _); simpl; [|done]. by intros [= <-].
Qed.

Lemma wrap_message_API (e : exn) :
  contains (py "API") (wrap_message e) = contains (py "API") (exc_msg e).
Proof.
  unfold wrap_message. change (py "API") with (65 :: py "PI").
  destruct (exc_type e); by apply contains_skip.
Qed.

Lemma handle_plain_exception (msg : str) :
  status_code (handle_exception (Exn PlainException msg))
  = if contains (py "API") msg then 503 else 500.
Proof.
  unfold handle_exception. simpl.
  destruct (contains (py "API") msg); [done|].
  by destruct (contains (py "JSON") msg).
Qed.

(** The status the handler answers with when the service raises [e]
    inside its [try]. *)
Lemma handler_status_on_failure (X : Externals) (request : InsightsRequest)
  (calls : nat) (e : exn) :
  manual_checks request = None ->
  (response ← generate_content X (full_prompt X request);
   text ← response;
   parse_and_build X (repair_text text) (category request)) = inl e ->
  status_code (fst (generate_insights X request calls))
  = if contains (py "API") (exc_msg e) then 503 else 500.
Proof.
  intros Hm He. unfold generate_insights, LLMService_generate_insights.
  rewrite Hm, He. cbn [fst raise].
  by rewrite handle_plain_exception, wrap_message_API.
Qed.

(** C1: a request body with one of the listed defects is answered with
    the client error 422 by the validation that precedes the handler,
    and the call counter of the generation service is left as it was. *)
Theorem invalid_request_rejected_before_generation
  (X : Externals) (b : RequestBody) (calls : nat) :
  request_invalid b = true ->
  exists details,
    post_generate_insights X b calls
    = ({| status_code := 422; content := ValidationDetails details |}, calls).
Proof.
  intros Hinv. unfold post_generate_insights.
  destruct (InsightsRequest_validate_invalid b Hinv) as [errors ->].
  by eexists.
Qed.

(** An empty supplier list is reported under the [suppliers] field. *)
Lemma empty_suppliers_names_field (X : Externals) (b : RequestBody) (calls : nat) :
  raw_suppliers b = [] ->
  exists details,
    post_generate_insights X b calls
    = ({| status_code := 422; content := ValidationDetails details |}, calls)
    /\ In (py "body -> suppliers: " ++ pydantic_msg X MinItems) details.
Proof.
  intros He. unfold post_generate_insights, InsightsRequest_validate.
  rewrite He. simpl.
  destruct (min_length_1 validate_category (raw_category b));
    eexists; (split; [reflexivity|]); simpl; auto.
Qed.

(** C10: on a request that model validation has accepted, none of the
    handler's own checks fires; the handler goes on to call the service
    exactly once and never answers 422. *)
Theorem manual_checks_unreachable
  (X : Externals) (b : RequestBody) (request : InsightsRequest) (calls : nat) :
  InsightsRequest_validate b = inr request ->
  manual_checks request = None
  /\ snd (generate_insights X request calls) = S calls
  /\ status_code (fst (generate_insights X request calls)) <> 422.
Proof.
  intros (_ & Hlen & Hss)%InsightsRequest_validate_inr.
  destruct (validated_suppliers_pass _ 0%nat 0%nat _ Hss) as [Hchk Hl].
  assert (manual_checks request = None) as Hm.
  { unfold manual_checks. rewrite Hl.
    destruct (Nat.eqb_spec (length (raw_suppliers b)) 0); [lia|done]. }
  split; [done|]. unfold generate_insights. rewrite Hm.
  pose proof (service_calls_once X request calls) as Hc.
  pose proof (service_raises_plain X request calls) as Hp.
  destruct (LLMService_generate_insights X request calls) as [[e|r] calls'];
    simpl in *; split; try done.
  destruct e as [c msg]. specialize (Hp _ eq_refl). simpl in Hp. subst c.
  rewrite handle_plain_exception. by destruct (contains _ _).
Qed.

(** C7 (amended): when the checks have passed and the generation call
    raises, or its response has no text, the handler answers 503 exactly
    when the error message contains the substring API, and 500
    otherwise; a text that [json.loads] rejects is answered the same
    way, by the message of the parser. *)
Theorem generation_failure_status
  (X : Externals) (request : InsightsRequest) (calls : nat) :
  manual_checks request = None ->
  (forall e,
      generate_content X (full_prompt X request) = inl e
      \/ generate_content X (full_prompt X request) = inr (inl e) ->
      status_code (fst (generate_insights X request calls))
      = if contains (py "API") (exc_msg e) then 503 else 500)
  /\ (forall text msg,
         generate_content X (full_prompt X request) = inr (inr text) ->
         json_loads X (repair_text text) = inl msg ->
         status_code (fst (generate_insights X request calls))
         = if contains (py "API") msg then 503 else 500).
Proof.
  intros Hm. split.
  - intros e He. apply handler_status_on_failure; [done|].
    by destruct He as [-> | ->].
  - intros text msg Hg Hj.
    apply (handler_status_on_failure X request calls (Exn JSONDecodeError msg));
      [done|].
    rewrite Hg. simpl. unfold parse_and_build. by rewrite Hj.
Qed.

(** ** The prompt *)

Lemma contains_full_prompt_tail (X : Externals) (request : InsightsRequest)
  (p : str) :
  contains p user_prompt_tail = true ->
  contains p (full_prompt X request) = true.
Proof.
  intros H. unfold full_prompt, _build_user_prompt.
  rewrite !app_assoc. by apply contains_app_r.
Qed.

(** C9 (amended): the fixed system instruction gives one contract-timing
    threshold, expiring within 6 months = high priority, and no
    confidence rubric.  The thresholds of 3 months (High) and 3-6 months
    (Medium) and the rubric starting at base 0.85 are in the scoring
    guidelines that close the user prompt, the same for every request,
    so every full prompt contains them. *)
Theorem prompt_thresholds (X : Externals) (request : InsightsRequest) :
  contains (py "contract timing urgencies (expiring within 6 months = high priority)")
    _build_system_prompt = true
  /\ contains (pyq "overall_risk_level: 'High' if single-source dependency exists OR contracts expiring within 3 months")
       (full_prompt X request) = true
  /\ contains (pyq "overall_risk_level: 'Medium' if moderate concerns (contracts 3-6 months")
       (full_prompt X request) = true
  /\ contains (py "Start with base 0.85") (full_prompt X request) = true.
Proof.
  split; [by vm_compute|].
  repeat split; apply contains_full_prompt_tail; by vm_compute.
Qed.

(** ** Concrete runs *)

(** C9, as stated, fails: the system instruction mentions neither a
    3-month threshold nor the 0.85 base. *)
Lemma system_prompt_lacks_thresholds :
  contains (py "3 months") _build_system_prompt = false
  /\ contains (py "3-6 months") _build_system_prompt = false
  /\ contains (py "0.85") _build_system_prompt = false.
Proof. by vm_compute. Qed.

(** C3: fence stripping does not come before the truncation heuristic.
    On a fenced response cut inside its object the code appends the
    missing braces behind the closing fence, which its own fence strip
    then no longer finds: the text handed to the parser keeps the fence,
    where stripping the fences first gives the complete object. *)
Lemma fence_order_matters :
  repair_text fenced_example = lines ["{'a': {'b': [1]"; "```}}"]
  /\ repair_text_fences_first fenced_example = pyq "{'a': {'b': [1]}}"
  /\ repair_text fenced_example <> repair_text_fences_first fenced_example.
Proof.
  split; [by vm_compute|]. split; [by vm_compute|].
  intros H. vm_compute in H. discriminate H.
Qed.

(** C4, as stated, fails: the text has one opening brace, so one
    closing brace is appended, not two. *)
Lemma truncated_example_gets_one_brace :
  count truncated_example 123 = 1%nat
  /\ fix_truncation truncated_example = truncated_example ++ py "}"
  /\ fix_truncation truncated_example <> truncated_example ++ py "}}".
Proof.
  split; [by vm_compute|]. split; [by vm_compute|].
  intros H. vm_compute in H. discriminate H.
Qed.

(** A text cut right behind an inner closing brace is left as it is:
    the heuristic looks no further once the text ends with a brace. *)
Lemma cut_behind_brace_not_repaired :
  repair_text (pyq "{'a': {'b': 1}") = pyq "{'a': {'b': 1}"
  /\ count (pyq "{'a': {'b': 1}") 123 = 2%nat
  /\ count (pyq "{'a': {'b': 1}") 125 = 1%nat.
Proof. by vm_compute. Qed.

(** C7, as stated, fails: a generation call that times out is answered
    with 500. *)
Lemma timeout_is_answered_500 :
  generate_content (sample_externals timing_out)
    (full_prompt (sample_externals timing_out) sample_request)
  = raise ExternalError (py "504 Deadline Exceeded")
  /\ status_code (fst (post_generate_insights (sample_externals timing_out)
                         sample_body 0)) = 500
  /\ status_code (fst (post_generate_insights (sample_externals timing_out)
                         sample_body 0)) <> 503.
Proof. split; [done|]. split; [by vm_compute|]. by vm_compute. Qed.

(** One bad field fails the whole response: end to end. *)
Example null_score_fails_the_response :
  status_code (fst (post_generate_insights
                      (sample_externals answering_null_score) sample_body 0))
  = 500.
Proof. by vm_compute. Qed.

Lemma invalid_request_rejected_before_generation_witness :
  request_invalid empty_suppliers_body = true
  /\ exists details,
      post_generate_insights (sample_externals answering) empty_suppliers_body 0
      = ({| status_code := 422; content := ValidationDetails details |}, 0%nat).
Proof.
  split; [reflexivity|].
  apply (invalid_request_rejected_before_generation
           (sample_externals answering) empty_suppliers_body 0).
  reflexivity.
Defined.

Lemma truncation_repair_restores_witness :
  fix_truncation truncated_example = truncated_example ++ replicate 1 125
  /\ repair_text truncated_example = truncated_example ++ py "}".
Proof.
  destruct (truncation_repair_restores (sample_externals answering)
              truncated_example (truncated_example ++ py "}") 1
              eq_refl (le_n 1) eq_refl eq_refl eq_refl eq_refl eq_refl)
    as (H1 & H2 & _).
  split; [exact H1 | exact H2].
Defined.


Lemma generation_failure_status_witness :
  manual_checks sample_request = None
  /\ status_code (fst (generate_insights (sample_externals key_rejected)
                         sample_request 0)) = 503
  /\ status_code (fst (generate_insights (sample_externals timing_out)
                         sample_request 0)) = 500.
Proof.
  split; [reflexivity|]. split.
  - destruct (generation_failure_status (sample_externals key_rejected)
                sample_request 0 eq_refl) as [H _].
    apply (H (Exn ExternalError
                (py "400 API key not valid. Please pass a valid API key."))).
    left. reflexivity.
  - destruct (generation_failure_status (sample_externals timing_out)
                sample_request 0 eq_refl) as [H _].
    apply (H (Exn ExternalError (py "504 Deadline Exceeded"))).
    left. reflexivity.
Defined.

Lemma repair_keeps_valid_json_witness :
  strip sample_response_text = sample_response_text
  /\ startswith sample_response_text fence = false
  /\ endswith sample_response_text (py "}") = true
  /\ repair_text sample_response_text = sample_response_text
  /\ json_loads (sample_externals answering) (repair_text sample_response_text)
     = inr (PDict sample_response).
Proof.
  destruct (repair_keeps_valid_json (sample_externals answering)
              sample_response_text eq_refl eq_refl eq_refl) as [H1 H2].
  split; [reflexivity|]. split; [reflexivity|]. split; [reflexivity|].
  split; [exact H1|]. rewrite H2. reflexivity.
Defined.

Lemma manual_checks_unreachable_witness :
  InsightsRequest_validate sample_body = inr sample_request
  /\ manual_checks sample_request = None
  /\ snd (generate_insights (sample_externals answering) sample_request 0) = 1%nat.
Proof.
  split; [reflexivity|].
  destruct (manual_checks_unreachable (sample_externals answering) sample_body
              sample_request 0 eq_refl) as (H1 & H2 & _).
  split; [exact H1 | exact H2].
Defined.

(** * Further properties of the code *)

(** ** Model validation, in full *)

Lemma blank_empty (v : str) : (length v <? 1)%nat = true -> is_blank v = true.
Proof. by destruct v. Qed.

Lemma nonblank_accepted (validator : str -> issue + str) (v : str) :
  (validator = validate_non_empty_string \/ validator = validate_category) ->
  is_blank v = false ->
  min_length_1 validator v = inr (strip v).
Proof.
  intros Hv Hb. unfold min_length_1.
  destruct (length v <? 1)%nat eqn:El.
  { apply blank_empty in El. congruence. }
  unfold is_blank in Hb.
  assert (Nat.eqb (length v) 0 = false) as Hv0.
  { destruct v; [done|done]. }
  destruct Hv as [-> | ->];
    unfold validate_non_empty_string, validate_category; by rewrite Hv0, Hb.
Qed.

Lemma name_field_inr (validator : str -> issue + str) (v s : str) :
  (validator = validate_non_empty_string \/ validator = validate_category) ->
  min_length_1 validator v = inr s -> is_blank v = false.
Proof.
  intros Hv H. destruct (is_blank v) eqn:Eb; [|done].
  destruct (blank_rejected validator v Hv Eb) as [i Hi]. congruence.
Qed.

Lemma SupplierInput_validate_ok (loc : list loc_item) (d : SupplierData) :
  supplier_ok d = true ->
  SupplierInput_validate loc d = inr (normalize_supplier d).
Proof.
  unfold supplier_ok.
  intros [[[[[Hn Hs]%andb_true_iff Hp1]%andb_true_iff Hp2]%andb_true_iff
            Hm]%andb_true_iff Hr]%andb_true_iff.
  apply negb_true_iff in Hn, Hr.
  unfold SupplierInput_validate, check_gt0, check_pct, check_ge0.
  rewrite (nonblank_accepted _ _ (or_introl eq_refl) Hn).
  rewrite (nonblank_accepted _ _ (or_introl eq_refl) Hr).
  by rewrite Hs, Hp1, Hp2, Hm.
Qed.

Lemma SupplierInput_validate_accepts (loc : list loc_item) (d : SupplierData)
  (s : SupplierInput) :
  SupplierInput_validate loc d = inr s -> supplier_ok d = true.
Proof.
  unfold SupplierInput_validate, supplier_ok.
  destruct (min_length_1 validate_non_empty_string (raw_supplier_name d))
    as [|n] eqn:En; [done|].
  apply name_field_inr in En; [|by left].
  unfold check_gt0, check_pct, check_ge0.
  destruct (0 <? raw_annual_spend_usd d)%float; [|done].
  destruct (0 <=? raw_on_time_delivery_pct d)%float; [|done].
  destruct (raw_on_time_delivery_pct d <=? 100)%float; [|done].
  destruct (0 <=? raw_contract_expiry_months d)%Z; [|done].
  simpl.
  destruct (min_length_1 validate_non_empty_string (raw_region d))
    as [|r] eqn:Er; [done|].
  apply name_field_inr in Er; [|by left].
  by rewrite En, Er.
Qed.

Lemma SupplierInput_validate_errors (loc : list loc_item) (d : SupplierData)
  (errors : list field_error) :
  SupplierInput_validate loc d = inl errors -> errors <> [].
Proof.
  unfold SupplierInput_validate.
  destruct (min_length_1 validate_non_empty_string (raw_supplier_name d)),
    (check_gt0 (raw_annual_spend_usd d)),
    (check_pct (raw_on_time_delivery_pct d)),
    (check_ge0 (raw_contract_expiry_months d)),
    (min_length_1 validate_non_empty_string (raw_region d));
    intros [= <-]; done.
Qed.

Lemma suppliers_validate_ok (ds : list SupplierData) (idx : nat) :
  forallb supplier_ok ds = true ->
  suppliers_validate idx ds = inr (map normalize_supplier ds).
Proof.
  revert idx. induction ds as [|d ds IH]; intros idx; simpl; [done|].
  intros [Hd Hds]%andb_true_iff.
  by rewrite (SupplierInput_validate_ok _ d Hd), (IH (S idx) Hds).
Qed.

Lemma suppliers_validate_accepts (ds : list SupplierData) (idx : nat)
  (ss : list SupplierInput) :
  suppliers_validate idx ds = inr ss -> forallb supplier_ok ds = true.
Proof.
  revert idx ss. induction ds as [|d ds IH]; intros idx ss; simpl; [done|].
  destruct (SupplierInput_validate _ d) as [|s] eqn:Es;
    destruct (suppliers_validate (S idx) ds) as [|ss'] eqn:Ess; try done.
  intros _. apply SupplierInput_validate_accepts in Es.
  by rewrite Es, (IH _ _ Ess).
Qed.

Lemma suppliers_validate_errors (ds : list SupplierData) (idx : nat)
  (errors : list field_error) :
  suppliers_validate idx ds = inl errors -> errors <> [].
Proof.
  revert idx errors. induction ds as [|d ds IH]; intros idx errors; simpl;
    [done|].
  destruct (SupplierInput_validate _ d) as [e|s] eqn:Es;
    destruct (suppliers_validate (S idx) ds) as [es|ss'] eqn:Ess;
    intros [= <-].
  - apply SupplierInput_validate_errors in Es. by destruct e.
  - by apply SupplierInput_validate_errors in Es.
  - by apply (IH (S idx)).
Qed.

Lemma body_ok_accepted (b : RequestBody) :
  body_ok b = true ->
  InsightsRequest_validate b = inr (normalize_body b).
Proof.
  unfold body_ok.
  intros [[Hc Hl]%andb_true_iff Hs]%andb_true_iff.
  apply negb_true_iff in Hc. apply Nat.leb_le in Hl.
  unfold InsightsRequest_validate.
  rewrite (nonblank_accepted _ _ (or_intror eq_refl) Hc).
  destruct (Nat.ltb_spec (length (raw_suppliers b)) 1); [lia|].
  by rewrite (suppliers_validate_ok _ 0 Hs).
Qed.

Lemma InsightsRequest_validate_accepts (b : RequestBody)
  (request : InsightsRequest) :
  InsightsRequest_validate b = inr request -> body_ok b = true.
Proof.
  intros H. destruct (body_ok b) eqn:E; [done|exfalso].
  revert H. unfold InsightsRequest_validate.
  destruct (min_length_1 validate_category (raw_category b)) as [|c] eqn:Ec;
    [done|].
  apply name_field_inr in Ec; [|by right].
  destruct (Nat.ltb_spec (length (raw_suppliers b)) 1); [done|].
  destruct (suppliers_validate 0 (raw_suppliers b)) as [|ss] eqn:Es; [done|].
  apply suppliers_validate_accepts in Es.
  unfold body_ok in E. rewrite Ec, Es in E.
  destruct (Nat.leb_spec 1 (length (raw_suppliers b))); [done|lia].
Qed.

(** X1: a body is accepted exactly when its category is not blank, it
    has at least one supplier and every supplier has a non-blank name
    and region, a spend above 0, a percentage within [0, 100] and
    non-negative months; the instance is then the body with category,
    names and regions stripped, suppliers in order. *)
Theorem validation_accepts_trimmed_body (b : RequestBody)
  (request : InsightsRequest) :
  InsightsRequest_validate b = inr request
  <-> body_ok b = true /\ request = normalize_body b.
Proof.
  split.
  - intros H. pose proof (InsightsRequest_validate_accepts b request H) as Hok.
    split; [done|]. rewrite (body_ok_accepted b Hok) in H. congruence.
  - intros [Hok ->]. by apply body_ok_accepted.
Qed.

(** X2: a rejected body fails the acceptance conditions, and the
    [ValidationError] raised for it carries at least one located
    error. *)
Theorem validation_rejects_with_errors (b : RequestBody)
  (errors : list field_error) :
  InsightsRequest_validate b = inl errors ->
  body_ok b = false /\ errors <> [].
Proof.
  intros H. split.
  - destruct (body_ok b) eqn:E; [|done].
    apply body_ok_accepted in E. congruence.
  - revert H. unfold InsightsRequest_validate.
    destruct (min_length_1 validate_category (raw_category b)) as [i|c].
    + intros [= <-]. done.
    + destruct (length (raw_suppliers b) <? 1)%nat; [by intros [= <-]|].
      destruct (suppliers_validate 0 (raw_suppliers b)) as [es|ss] eqn:Es;
        [|done].
      intros [= <-]. simpl. by apply suppliers_validate_errors in Es.
Qed.

(** ** The handler and the route *)

Lemma check_suppliers_passes (ss : list SupplierInput) (idx : nat) :
  check_suppliers idx ss = None <-> forallb supplier_passes ss = true.
Proof.
  revert idx. induction ss as [|s ss IH]; intros idx; [done|].
  cbn [check_suppliers forallb]. unfold supplier_passes.
  destruct (Nat.eqb (length (supplier_name s)) 0); [done|].
  destruct (Nat.eqb (length (strip (supplier_name s))) 0); [done|].
  destruct (annual_spend_usd s <=? 0)%float; [done|].
  destruct ((0 <=? on_time_delivery_pct s)%float
            && (on_time_delivery_pct s <=? 100)%float); [|done].
  destruct (contract_expiry_months s <? 0)%Z; [done|].
  simpl. apply IH.
Qed.

(** X3: for any request object, validated or not, the handler calls
    the service (once) exactly when the supplier list is not empty and
    every supplier passes the handler's own checks, and then never
    answers 422; otherwise it answers 422 and the service is not
    called. *)
Theorem handler_calls_service_iff_checks_pass
  (X : Externals) (request : InsightsRequest) (calls : nat) :
  let ok := negb (Nat.eqb (length (suppliers request)) 0)
            && forallb supplier_passes (suppliers request) in
  snd (generate_insights X request calls) = (if ok then S calls else calls)
  /\ (if ok
      then status_code (fst (generate_insights X request calls)) <> 422
      else status_code (fst (generate_insights X request calls)) = 422).
Proof.
  unfold generate_insights, manual_checks.
  destruct (Nat.eqb (length (suppliers request)) 0); simpl; [by split|].
  pose proof (check_suppliers_passes (suppliers request) 0) as Hc.
  destruct (check_suppliers 0 (suppliers request)) as [detail|].
  - destruct (forallb supplier_passes (suppliers request)); [|done].
    destruct Hc as [_ Hc]. by specialize (Hc eq_refl).
  - destruct Hc as [Hc _]. rewrite (Hc eq_refl).
    pose proof (service_calls_once X request calls) as Hs.
    pose proof (service_raises_plain X request calls) as Hp.
    destruct (LLMService_generate_insights X request calls) as [[e|r] calls'];
      simpl in *; split; try done.
    destruct e as [c msg]. specialize (Hp _ eq_refl). simpl in Hp. subst c.
    rewrite handle_plain_exception. by destruct (contains _ _).
Qed.

Lemma validated_request_passes_checks (b : RequestBody)
  (request : InsightsRequest) :
  InsightsRequest_validate b = inr request -> manual_checks request = None.
Proof.
  intros (_ & Hlen & Hss)%InsightsRequest_validate_inr.
  destruct (validated_suppliers_pass _ 0%nat 0%nat _ Hss) as [Hchk Hl].
  unfold manual_checks. rewrite Hl.
  destruct (Nat.eqb_spec (length (raw_suppliers b)) 0); [lia|done].
Qed.

(** X4: the route calls the generation service once when the body is
    acceptable and not at all otherwise; there is no retry. *)
Theorem route_calls_service_once_iff_valid
  (X : Externals) (b : RequestBody) (calls : nat) :
  snd (post_generate_insights X b calls)
  = if body_ok b then S calls else calls.
Proof.
  unfold post_generate_insights.
  destruct (InsightsRequest_validate b) as [errors|request] eqn:E.
  - apply validation_rejects_with_errors in E as [-> _]. done.
  - rewrite (InsightsRequest_validate_accepts b request E).
    unfold generate_insights.
    rewrite (validated_request_passes_checks b request E).
    pose proof (service_calls_once X request calls).
    by destruct (LLMService_generate_insights X request calls) as [[|] ?].
Qed.

(** X5: the route answers with one of the four status codes 200, 422,
    500 and 503, and the insights are in the answer exactly when the
    status is 200. *)
Theorem route_status_codes (X : Externals) (b : RequestBody) (calls : nat) :
  let answer := fst (post_generate_insights X b calls) in
  (status_code answer = 200 /\ exists r, content answer = Insights r)
  \/ ((status_code answer = 422 \/ status_code answer = 500
       \/ status_code answer = 503)
      /\ forall r, content answer <> Insights r).
Proof.
  unfold post_generate_insights.
  destruct (InsightsRequest_validate b) as [errors|request]; simpl.
  { right. split; [by left|done]. }
  unfold generate_insights.
  destruct (manual_checks request); simpl.
  { right. split; [by left|done]. }
  destruct (LLMService_generate_insights X request calls) as [[e|r] calls'];
    simpl.
  - right. unfold handle_exception.
    destruct (exc_type e); simpl;
      repeat (match goal with
              | |- context [if ?c then _ else _] => destruct c
              end; simpl);
      (split; [tauto|done]).
  - left. split; [done|by eexists].
Qed.

(** ** The text repair, further *)

Lemma endswith_app_braces (t : str) (k : nat) :
  endswith (t ++ replicate (S k) 125) (py "}") = true.
Proof.
  unfold endswith. rewrite rev_app_replicate_S.
  change (rev (py "}")) with [125]. done.
Qed.

Lemma fix_truncation_shape (t : str) :
  fix_truncation t = t
  \/ exists k, fix_truncation t = t ++ replicate (S k) 125.
Proof.
  unfold fix_truncation.
  destruct (negb (endswith t (py "}"))); [|by left].
  destruct (Nat.ltb_spec (count t 125) (count t 123)) as [Hlt|Hge];
    [|by left].
  destruct (Nat.sub (count t 123) (count t 125)) as [|k] eqn:Ek; [lia|].
  right. by exists k.
Qed.

(** X6: the truncation heuristic only ever appends closing braces, and
    applying it twice is applying it once. *)
Theorem fix_truncation_idempotent (t : str) :
  (exists k, fix_truncation t = t ++ replicate k 125)
  /\ fix_truncation (fix_truncation t) = fix_truncation t.
Proof.
  destruct (fix_truncation_shape t) as [H | [k H]].
  - split; [exists 0%nat; by rewrite app_nil_r|]. by rewrite !H.
  - split; [by eexists|]. rewrite H.
    apply fix_truncation_closed, endswith_app_braces.
Qed.

(** X7: on a text that does not end with a closing brace, the
    heuristic leaves no more opening than closing braces, and the number
    of opening braces is untouched. *)
Theorem fix_truncation_balances (t : str) :
  endswith t (py "}") = false ->
  (count (fix_truncation t) 123%N <= count (fix_truncation t) 125%N)%nat
  /\ count (fix_truncation t) 123 = count t 123.
Proof.
  intros He. unfold fix_truncation. rewrite He. simpl.
  destruct (Nat.ltb_spec (count t 125) (count t 123)) as [Hlt|Hge];
    [|split; [lia|done]].
  rewrite !count_app, !count_replicate. simpl. lia.
Qed.

Lemma length_lstrip_rstrip (s : str) :
  (length (rstrip s) <= length s)%nat.
Proof.
  unfold rstrip. rewrite length_rev.
  pose proof (lstrip_length (rev s)). by rewrite length_rev in *.
Qed.

(** X8: the cleaned text carries no white space at either end and is
    never longer than the text it was made from. *)
Theorem clean_json_response_trimmed (text : str) :
  strip (_clean_json_response text) = _clean_json_response text
  /\ (length (_clean_json_response text) <= length text)%nat.
Proof.
  unfold _clean_json_response. split; [apply strip_idempotent|].
  pose proof (length_strip_le text) as H0.
  set (t1 := if startswith (strip text) (py "```json") then drop 7 (strip text)
             else if startswith (strip text) (py "```") then drop 3 (strip text)
             else strip text).
  assert (length t1 <= length (strip text))%nat as H1.
  { unfold t1. repeat case_match; rewrite ?length_drop; lia. }
  set (t2 := if endswith t1 (py "```") then take (length t1 - 3) t1 else t1).
  assert (length t2 <= length t1)%nat as H2.
  { unfold t2. case_match; rewrite ?length_take; lia. }
  pose proof (length_strip_le t2). lia.
Qed.

Lemma strip_between_newlines (body : str) :
  strip body = body -> strip (nl ++ body ++ nl) = body.
Proof.
  intros [Hh Hr]%strip_fixed_inv. unfold strip, rstrip.
  change (lstrip (nl ++ body ++ nl)) with (lstrip (body ++ nl)).
  destruct body as [|c body]; [done|].
  rewrite (lstrip_id ((c :: body) ++ nl)) by done.
  rewrite rev_app_distr.
  change (lstrip (rev nl ++ rev (c :: body))) with (lstrip (rev (c :: body))).
  rewrite (lstrip_id _ Hr). apply rev_involutive.
Qed.

Lemma fenced_trimmed (tag body : str) :
  strip (fenced tag body) = fenced tag body.
Proof.
  apply strip_fixed; [done|].
  unfold fenced. by rewrite !rev_app_distr.
Qed.

Lemma fenced_opening_dropped (tag body : str) :
  tag = [] \/ tag = py "json" ->
  (if startswith (fenced tag body) (py "```json")
   then drop 7 (fenced tag body)
   else if startswith (fenced tag body) (py "```")
        then drop 3 (fenced tag body)
        else fenced tag body)
  = (nl ++ body ++ nl) ++ fence.
Proof.
  intros [-> | ->]; unfold fenced; simpl; by rewrite <- ?app_assoc.
Qed.

Lemma clean_fenced (tag body : str) :
  tag = [] \/ tag = py "json" ->
  strip body = body ->
  _clean_json_response (fenced tag body) = body.
Proof.
  intros Htag Hs. unfold _clean_json_response.
  rewrite fenced_trimmed, (fenced_opening_dropped tag body Htag).
  assert (endswith ((nl ++ body ++ nl) ++ fence) (py "```") = true) as ->.
  { unfold endswith. by rewrite rev_app_distr. }
  rewrite length_app. change (length fence) with 3%nat.
  rewrite Nat.add_sub, take_app_length.
  by apply strip_between_newlines.
Qed.

(** X9: a complete response wrapped in a code fence, tagged [json] or
    not, is unwrapped: when the body is trimmed and has no more opening
    than closing braces, the text handed to the parser is the body. *)
Theorem fenced_response_unwrapped (tag body : str) :
  tag = [] \/ tag = py "json" ->
  strip body = body ->
  (count body 123%N <= count body 125%N)%nat ->
  repair_text (fenced tag body) = body.
Proof.
  intros Htag Hs Hc. unfold repair_text. rewrite fenced_trimmed.
  assert (fix_truncation (fenced tag body) = fenced tag body) as ->;
    [|by apply clean_fenced].
  assert (endswith (fenced tag body) (py "}") = false) as He.
  { unfold endswith, fenced. by rewrite !rev_app_distr. }
  assert (count (fenced tag body) 123 = count body 123
          /\ count (fenced tag body) 125 = count body 125) as [H1 H2].
  { unfold fenced. rewrite !count_app. destruct Htag as [-> | ->]; simpl; lia. }
  unfold fix_truncation. cbv zeta. rewrite He, H1, H2. cbn [negb].
  by destruct (Nat.ltb_spec (count body 125) (count body 123)); [lia|].
Qed.

(** ** The sanitizer, further *)

Lemma float_above_070_nonneg (s : float) :
  (0.70 <? s)%float = true -> (0 <=? s)%float = true.
Proof.
  rewrite FloatAxioms.ltb_spec, FloatAxioms.leb_spec.
  let v := eval vm_compute in (Prim2SF 0.70) in change (Prim2SF 0.70) with v.
  change (Prim2SF 0) with (S754_zero false).
  unfold SFltb, SFleb.
  by destruct (Prim2SF s) as [[]|[]| |[] ? ?].
Qed.

Lemma float_below_098_le1 (s : float) :
  (s <? 0.98)%float = true -> (s <=? 1)%float = true.
Proof.
  rewrite FloatAxioms.ltb_spec, FloatAxioms.leb_spec.
  let v := eval vm_compute in (Prim2SF 0.98) in change (Prim2SF 0.98) with v.
  let v := eval vm_compute in (Prim2SF 1) in change (Prim2SF 1) with v.
  unfold SFltb, SFleb.
  destruct (Prim2SF s) as [[]|[]| |[] m e]; try done.
  cbn [SFcompare].
  destruct (Z.compare_spec e (-53)) as [-> | Hlt | Hgt].
  - done.
  - intros _. destruct (Z.compare_spec e (-52)); [lia|done|lia].
  - done.
Qed.

(** The clamp lands in the unit interval that [InsightsResponse]
    demands, and clamping twice is clamping once. *)
Lemma clamp_unit_interval (score : float) :
  (0 <=? py_max 0.70 (py_min 0.98 score))%float = true
  /\ (py_max 0.70 (py_min 0.98 score) <=? 1)%float = true.
Proof.
  unfold py_min, py_max.
  destruct (score <? 0.98)%float eqn:E1.
  - destruct (0.70 <? score)%float eqn:E2.
    + split; [by apply float_above_070_nonneg | by apply float_below_098_le1].
    + by split.
  - by split.
Qed.

Lemma clamp_idempotent (score : float) :
  py_max 0.70 (py_min 0.98 (py_max 0.70 (py_min 0.98 score)))
  = py_max 0.70 (py_min 0.98 score).
Proof.
  unfold py_min, py_max.
  destruct (score <? 0.98)%float eqn:E1.
  - destruct (0.70 <? score)%float eqn:E2.
    + by rewrite E1, E2.
    + done.
  - done.
Qed.

Lemma in_strs_risk_level (v : pyval) :
  in_strs v [py "Low"; py "Medium"; py "High"] = true ->
  exists r, v = PStr (RiskLevel_value r).
Proof.
  destruct v as [| | | |s| |]; try done. cbn [in_strs existsb].
  rewrite !orb_true_iff. unfold str_eqb.
  intros [H|[H|[H|H]]]; try done; apply bool_decide_eq_true in H; subst.
  - by exists LOW.
  - by exists MEDIUM.
  - by exists HIGH.
Qed.

Lemma in_list_fields (f : str) :
  In f list_fields ->
  f <> py "category" /\ f <> py "overall_risk_level"
  /\ f <> py "confidence_score".
Proof.
  intros [<- | [<- | [<- | []]]]; repeat split; key_ne.
Qed.

Section SanitizerShape.

Context (X : Externals).

Lemma fix_category_lookup (data : gmap str pyval) (category : str) :
  fix_category data category !! py "category"
  = match data !! py "category" with
    | Some v => if truthy v then Some v else Some (PStr category)
    | None => Some (PStr category)
    end.
Proof.
  unfold fix_category.
  destruct (data !! py "category") as [v|] eqn:E.
  - destruct (truthy v); simpl; [done|]. by rewrite lookup_insert_eq.
  - by rewrite lookup_insert_eq.
Qed.

Lemma fix_list_field_established (data : gmap str pyval) (f : str) :
  is_nonempty_list (fix_list_field data f !! f) = true.
Proof.
  unfold fix_list_field.
  destruct (data !! f) as [v|] eqn:E; [|by rewrite lookup_insert_eq].
  destruct v as [| | | | |[|x l]|]; simpl; rewrite ?lookup_insert_eq, ?E; done.
Qed.

Lemma fix_list_field_id (data : gmap str pyval) (f : str) :
  is_nonempty_list (data !! f) = true -> fix_list_field data f = data.
Proof.
  unfold fix_list_field.
  destruct (data !! f) as [[| | | | |[|x l]|]|]; done.
Qed.

Lemma fix_list_field_keeps (data : gmap str pyval) (f g : str) :
  is_nonempty_list (data !! f) = true ->
  fix_list_field data g !! f = data !! f.
Proof.
  intros H. destruct (decide (f = g)) as [<-|Hne].
  - by rewrite fix_list_field_id.
  - by apply fix_list_field_other.
Qed.

Lemma fix_list_fields_keep (fields : list str) (data : gmap str pyval)
  (f : str) :
  is_nonempty_list (data !! f) = true ->
  foldl fix_list_field data fields !! f = data !! f.
Proof.
  revert data. induction fields as [|g fields IH]; intros data H; [done|].
  simpl. rewrite IH; rewrite fix_list_field_keeps; done.
Qed.

Lemma fix_list_fields_established (fields : list str) (data : gmap str pyval)
  (f : str) :
  In f fields ->
  is_nonempty_list (foldl fix_list_field data fields !! f) = true.
Proof.
  revert data. induction fields as [|g fields IH]; intros data; [done|].
  intros [-> | Hin]; simpl.
  - rewrite fix_list_fields_keep; by apply fix_list_field_established.
  - by apply IH.
Qed.

Lemma fix_list_fields_id (fields : list str) (data : gmap str pyval) :
  Forall (fun f => is_nonempty_list (data !! f) = true) fields ->
  foldl fix_list_field data fields = data.
Proof.
  induction 1 as [|f fields Hf _ IH]; [done|].
  simpl. by rewrite fix_list_field_id.
Qed.

Lemma sanitized_category (data data' : gmap str pyval) (category : str) :
  _validate_and_fix_response X data category = inr data' ->
  data' !! py "category"
  = match data !! py "category" with
    | Some v => if truthy v then Some v else Some (PStr category)
    | None => Some (PStr category)
    end.
Proof.
  unfold _validate_and_fix_response. intros H.
  rewrite (fix_confidence_score_other X _ _ (py "category") ltac:(key_ne) H).
  rewrite fix_list_fields_other by (repeat constructor; key_ne).
  rewrite fix_risk_level_other by key_ne.
  apply fix_category_lookup.
Qed.

Lemma sanitized_list_field (data data' : gmap str pyval) (category f : str) :
  _validate_and_fix_response X data category = inr data' ->
  In f list_fields ->
  is_nonempty_list (data' !! f) = true
  /\ (is_nonempty_list (data !! f) = true -> data' !! f = data !! f).
Proof.
  unfold _validate_and_fix_response. intros H Hin.
  destruct (in_list_fields f Hin) as (Hc & Hr & Hs).
  rewrite (fix_confidence_score_other X _ _ f Hs H).
  split; [by apply fix_list_fields_established|].
  intros Hgood.
  assert (fix_risk_level (fix_category data category) !! f = data !! f) as Heq.
  { rewrite fix_risk_level_other by done. by apply fix_category_other. }
  rewrite fix_list_fields_keep; [done|]. by rewrite Heq.
Qed.

Lemma sanitized_other (data data' : gmap str pyval) (category key : str) :
  _validate_and_fix_response X data category = inr data' ->
  ~ In key sanitized_keys ->
  data' !! key = data !! key.
Proof.
  unfold _validate_and_fix_response, sanitized_keys. intros H Hnot.
  assert (key <> py "category" /\ key <> py "overall_risk_level"
          /\ key <> py "confidence_score"
          /\ Forall (fun f => key <> f) list_fields) as (Hc & Hr & Hs & Hl).
  { repeat split; try (intros ->; apply Hnot; simpl; tauto).
    repeat constructor; intros ->; apply Hnot; simpl; tauto. }
  rewrite (fix_confidence_score_other X _ _ key Hs H).
  rewrite fix_list_fields_other by done.
  rewrite fix_risk_level_other by done.
  by apply fix_category_other.
Qed.

End SanitizerShape.

Lemma fix_category_id (data : gmap str pyval) (category : str) (v : pyval) :
  data !! py "category" = Some v ->
  truthy v = true \/ v = PStr category ->
  fix_category data category = data.
Proof.
  intros Hv Hok. unfold fix_category. rewrite Hv.
  destruct (truthy v) eqn:E; [done|]. simpl.
  destruct Hok as [Ht | ->]; [congruence|]. by apply insert_id.
Qed.

Lemma fix_risk_level_id (data : gmap str pyval) (v : pyval) :
  data !! py "overall_risk_level" = Some v ->
  in_strs v [py "Low"; py "Medium"; py "High"] = true ->
  fix_risk_level data = data.
Proof. intros Hv Hin. unfold fix_risk_level. by rewrite Hv, Hin. Qed.

(** X10: whenever the sanitizer returns, every field it is in charge of
    is present and well formed: a category that is truthy or the
    request's own, a risk level among Low, Medium and High, three lists
    with at least one element each, and a float score within
    [0.70, 0.98]. *)
Theorem sanitized_fields_well_formed (X : Externals)
  (data data' : gmap str pyval) (category : str) :
  _validate_and_fix_response X data category = inr data' ->
  (exists v, data' !! py "category" = Some v
             /\ (truthy v = true \/ v = PStr category))
  /\ (exists r, data' !! py "overall_risk_level" = Some (PStr (RiskLevel_value r)))
  /\ Forall (fun f => is_nonempty_list (data' !! f) = true) list_fields
  /\ (exists c, data' !! py "confidence_score" = Some (PFloat c)
                /\ (0.70 <=? c)%float = true /\ (c <=? 0.98)%float = true).
Proof.
  intros H. split; [|split; [|split]].
  - rewrite (sanitized_category X data data' category H).
    destruct (data !! py "category") as [v|]; [|eauto].
    destruct (truthy v) eqn:E; eauto.
  - rewrite (sanitized_risk_level X data data' category H).
    destruct (data !! py "overall_risk_level") as [v|]; [|by exists MEDIUM].
    destruct (in_strs v _) eqn:E; [|by exists MEDIUM].
    destruct (in_strs_risk_level v E) as [r ->]. by exists r.
  - apply Forall_forall. intros f Hf%list_elem_of_In.
    by destruct (sanitized_list_field X data data' category f H Hf).
  - rewrite (sanitized_confidence_score X data data' category H).
    destruct (data !! py "confidence_score") as [v|] eqn:Ev; [|by eexists].
    destruct (py_float X v) as [e|score] eqn:E.
    + exfalso. assert (_validate_and_fix_response X data category = inl e)
        by (apply sanitizer_raises_iff; eauto). congruence.
    + eexists. split; [done|]. apply clamp_in_range.
Qed.

(** X11: the sanitizer leaves alone what is already valid: a key it is
    not in charge of, a truthy category, a non-empty list. *)
Theorem sanitizer_keeps_valid_fields (X : Externals)
  (data data' : gmap str pyval) (category : str) :
  _validate_and_fix_response X data category = inr data' ->
  (forall key, ~ In key sanitized_keys -> data' !! key = data !! key)
  /\ (forall v, data !! py "category" = Some v -> truthy v = true ->
                data' !! py "category" = Some v)
  /\ (forall f, In f list_fields -> is_nonempty_list (data !! f) = true ->
                data' !! f = data !! f).
Proof.
  intros H. split; [|split].
  - intros key Hkey. by apply (sanitized_other X data data' category).
  - intros v Hv Ht.
    by rewrite (sanitized_category X data data' category H), Hv, Ht.
  - intros f Hf Hgood.
    destruct (sanitized_list_field X data data' category f H Hf) as [_ Hk].
    by apply Hk.
Qed.

(** X12: sanitizing is idempotent: a mapping the sanitizer returned
    goes through it again unchanged. *)
Theorem sanitizer_idempotent (X : Externals)
  (data data' : gmap str pyval) (category : str) :
  _validate_and_fix_response X data category = inr data' ->
  _validate_and_fix_response X data' category = inr data'.
Proof.
  intros H.
  pose proof (sanitized_category X data data' category H) as Hc.
  pose proof (sanitized_risk_level X data data' category H) as Hr.
  pose proof (sanitized_confidence_score X data data' category H) as Hs.
  assert (Forall (fun f => is_nonempty_list (data' !! f) = true) list_fields)
    as Hl.
  { apply Forall_forall. intros f Hf%list_elem_of_In.
    by destruct (sanitized_list_field X data data' category f H Hf). }
  unfold _validate_and_fix_response.
  assert (fix_category data' category = data') as ->.
  { destruct (data !! py "category") as [v|];
      [destruct (truthy v) eqn:E|];
      eauto using fix_category_id. }
  assert (fix_risk_level data' = data') as ->.
  { destruct (data !! py "overall_risk_level") as [v|];
      [destruct (in_strs v _) eqn:E|];
      eauto using fix_risk_level_id. }
  rewrite (fix_list_fields_id list_fields data' Hl).
  unfold fix_confidence_score. rewrite Hs.
  destruct (data !! py "confidence_score") as [v|] eqn:Ev.
  - destruct (py_float X v) as [e|score] eqn:E.
    + exfalso. assert (_validate_and_fix_response X data category = inl e)
        by (apply sanitizer_raises_iff; eauto). congruence.
    + simpl. rewrite clamp_idempotent.
      change (mret ?x) with (@inr exn _ x). f_equal. by apply insert_id.
  - simpl. change (mret ?x) with (@inr exn _ x). f_equal. by apply insert_id.
Qed.

(** X13: after sanitizing, the construction of the response cannot fail
    on the risk level or on the score: both pass their validation, the
    score within the unit interval the model demands. *)
Theorem sanitized_passes_enum_and_score (X : Externals)
  (data data' : gmap str pyval) (category : str) :
  _validate_and_fix_response X data category = inr data' ->
  (exists r, field_risk_level data' = inr r)
  /\ (exists c, field_confidence_score X data' = inr c
                /\ (0.70 <=? c)%float = true /\ (c <=? 0.98)%float = true).
Proof.
  intros H. split.
  - unfold field_risk_level.
    rewrite (sanitized_risk_level X data data' category H).
    destruct (data !! py "overall_risk_level") as [v|]; [|by exists MEDIUM].
    destruct (in_strs v _) eqn:E; [|by exists MEDIUM].
    destruct (in_strs_risk_level v E) as [r ->].
    exists r. by rewrite risk_of_str_value.
  - unfold field_confidence_score.
    rewrite (sanitized_confidence_score X data data' category H).
    destruct (data !! py "confidence_score") as [v|] eqn:Ev; [|by eexists].
    destruct (py_float X v) as [e|score] eqn:E.
    + exfalso. assert (_validate_and_fix_response X data category = inl e)
        by (apply sanitizer_raises_iff; eauto). congruence.
    + cbn [py_float mret result_ret].
      destruct (clamp_unit_interval score) as [-> ->].
      eexists. split; [done|]. apply clamp_in_range.
Qed.

(** ** The constructed response *)

Lemma constructed_fields (X : Externals) (data : gmap str pyval)
  (resp : InsightsResponse) :
  InsightsResponse_new X data = inr resp ->
  field_category X data = inr (resp_category resp)
  /\ field_risk_level data = inr (overall_risk_level resp)
  /\ field_str_list X data (py "key_risks") = inr (key_risks resp)
  /\ field_str_list X data (py "negotiation_levers")
     = inr (negotiation_levers resp)
  /\ field_str_list X data (py "recommended_actions_next_90_days")
     = inr (recommended_actions_next_90_days resp)
  /\ field_confidence_score X data = inr (confidence_score resp).
Proof.
  unfold InsightsResponse_new.
  destruct (field_category X data), (field_risk_level data),
    (field_str_list X data (py "key_risks")),
    (field_str_list X data (py "negotiation_levers")),
    (field_str_list X data (py "recommended_actions_next_90_days")),
    (field_confidence_score X data); try discriminate.
  by intros [= <-].
Qed.

Lemma validate_non_empty_lists_inr (v l : list str) :
  validate_non_empty_lists v = inr l -> well_formed_items l.
Proof.
  unfold validate_non_empty_lists.
  destruct (Nat.eqb (length v) 0) eqn:El; [done|].
  match goal with
  | |- context [existsb ?f v] => destruct (existsb f v) eqn:Eb
  end; [done|].
  intros [= <-]. split.
  - by destruct v.
  - clear El. induction v as [|item v IH]; [constructor|].
    simpl in Eb. apply orb_false_iff in Eb as [Hitem Hrest].
    apply orb_false_iff in Hitem as [_ Hs].
    constructor; [|by apply IH].
    split; [|apply strip_idempotent].
    intros Hnil. by rewrite Hnil in Hs.
Qed.

Lemma field_str_list_inr (X : Externals) (data : gmap str pyval)
  (key : str) (l : list str) :
  field_str_list X data key = inr l -> well_formed_items l.
Proof.
  unfold field_str_list.
  destruct (data !! key) as [[| | | | |items|]|]; try done.
  destruct (mapM (pydantic_str X) items) as [strs|]; [|done].
  destruct (length strs <? 1)%nat; [done|].
  apply validate_non_empty_lists_inr.
Qed.

(** X14: every constructed [InsightsResponse] keeps the invariants of
    the model: each of its three lists has at least one item, every
    item is non-empty and has no white space at either end, and the
    score lies in [0, 1]. *)
Theorem constructed_response_invariants (X : Externals)
  (data : gmap str pyval) (resp : InsightsResponse) :
  InsightsResponse_new X data = inr resp ->
  well_formed_items (key_risks resp)
  /\ well_formed_items (negotiation_levers resp)
  /\ well_formed_items (recommended_actions_next_90_days resp)
  /\ (0 <=? confidence_score resp)%float = true
  /\ (confidence_score resp <=? 1)%float = true.
Proof.
  intros (_ & _ & Hk & Hn & Ha & Hs)%constructed_fields.
  apply field_str_list_inr in Hk, Hn, Ha.
  repeat (split; [done|]).
  revert Hs. unfold field_confidence_score.
  destruct (data !! py "confidence_score") as [v|]; [|done].
  destruct (py_float X v) as [|f]; [done|].
  destruct (0 <=? f)%float eqn:E0; [|done].
  destruct (f <=? 1)%float eqn:E1; [|done].
  by intros [= <-].
Qed.

Lemma service_success (X : Externals) (request : InsightsRequest)
  (calls : nat) (resp : InsightsResponse) :
  fst (LLMService_generate_insights X request calls) = inr resp ->
  exists text data data',
    generate_content X (full_prompt X request) = inr (inr text)
    /\ json_loads X (repair_text text) = inr (PDict data)
    /\ _validate_and_fix_response X data (category request) = inr data'
    /\ InsightsResponse_new X data' = inr resp.
Proof.
  unfold LLMService_generate_insights.
  destruct (generate_content X (full_prompt X request)) as [|[|text]];
    simpl; try done.
  unfold parse_and_build.
  destruct (json_loads X (repair_text text)) as [|v] eqn:Ej; simpl; [done|].
  destruct v as [| | | | | |data]; simpl; try done.
  destruct (_validate_and_fix_response X data (category request))
    as [|data'] eqn:Es; simpl; [done|].
  destruct (InsightsResponse_new X data') as [|r] eqn:Ec; simpl; [done|].
  intros [= <-]. by exists text, data, data'.
Qed.

(** X15: whatever the generation service returns, an answer with
    status 200 carries a score within [0.70, 0.98], three well-formed
    lists, and was produced with exactly one call to the service for a
    body that validation accepts. *)
Theorem successful_answer_invariants (X : Externals) (b : RequestBody)
  (calls calls' : nat) (resp : InsightsResponse) :
  post_generate_insights X b calls
  = ({| status_code := 200; content := Insights resp |}, calls') ->
  body_ok b = true
  /\ calls' = S calls
  /\ (0.70 <=? confidence_score resp)%float = true
  /\ (confidence_score resp <=? 0.98)%float = true
  /\ well_formed_items (key_risks resp)
  /\ well_formed_items (negotiation_levers resp)
  /\ well_formed_items (recommended_actions_next_90_days resp).
Proof.
  unfold post_generate_insights.
  destruct (InsightsRequest_validate b) as [|request] eqn:Ev; [done|].
  apply InsightsRequest_validate_accepts in Ev as ->.
  unfold generate_insights.
  destruct (manual_checks request); [done|].
  pose proof (service_calls_once X request calls) as Hc.
  pose proof (service_success X request calls) as Hs.
  destruct (LLMService_generate_insights X request calls) as [[e|r] n];
    simpl in *.
  { unfold handle_exception.
    destruct (exc_type e); simpl; repeat case_match; done. }
  intros [= -> ->]. split; [done|]. split; [done|].
  destruct (Hs resp eq_refl) as (text & data & data' & _ & _ & Hsan & Hnew).
  pose proof (sanitized_confidence_score X data data' _ Hsan) as Hscore.
  destruct (constructed_fields X data' resp Hnew) as (_ & _ & Hk & Hn & Ha & Hf).
  apply field_str_list_inr in Hk, Hn, Ha.
  assert (exists score, confidence_score resp = py_max 0.70 (py_min 0.98 score))
    as [score ->].
  { revert Hf. unfold field_confidence_score. rewrite Hscore.
    destruct (data !! py "confidence_score") as [v|].
    - destruct (py_float X v) as [|score]; [done|].
      cbn [py_float mret result_ret].
      destruct (clamp_unit_interval score) as [-> ->].
      intros [= <-]. by exists score.
    - intros [= <-]. by exists 0.85%float. }
  destruct (clamp_in_range score). done.
Qed.

(** X16: when the generator's object has no category, or a falsy one,
    the constructed response carries the category of the request. *)
Theorem missing_category_echoes_request (X : Externals)
  (data data' : gmap str pyval) (category : str) (resp : InsightsResponse) :
  pydantic_str X (PStr category) = Some category ->
  _validate_and_fix_response X data category = inr data' ->
  InsightsResponse_new X data' = inr resp ->
  (data !! py "category" = None
   \/ exists v, data !! py "category" = Some v /\ truthy v = false) ->
  resp_category resp = category.
Proof.
  intros Hstr Hsan Hnew Hmiss.
  pose proof (sanitized_category X data data' category Hsan) as Hc.
  destruct (constructed_fields X data' resp Hnew) as (Hf & _).
  unfold field_category in Hf.
  assert (data' !! py "category" = Some (PStr category)) as Hd.
  { destruct Hmiss as [Hn | (v & Hv & Ht)]; by rewrite Hc, ?Hn, ?Hv, ?Ht. }
  rewrite Hd, Hstr in Hf. congruence.
Qed.

(** ** The prompt, further *)

Lemma startswith_self_app (p b : str) : startswith (p ++ b) p = true.
Proof.
  induction p as [|a p IH]; simpl; [done|].
  by rewrite N.eqb_refl, IH.
Qed.

Lemma contains_inside (p a b : str) : contains p (a ++ p ++ b) = true.
Proof.
  apply contains_app_r.
  destruct (p ++ b) as [|x r] eqn:E.
  - apply app_eq_nil in E as [-> ->]. done.
  - rewrite <- E. cbn [contains]. rewrite E.
    change (contains p (x :: r))
      with (startswith (x :: r) p || contains p r).
    by rewrite <- E, startswith_self_app.
Qed.

(** X17: the full prompt opens with the system instruction and
    carries, verbatim, the category of the request behind its label and
    the serialized supplier list. *)
Theorem prompt_carries_request (X : Externals) (request : InsightsRequest) :
  startswith (full_prompt X request) _build_system_prompt = true
  /\ contains (py "CATEGORY: " ++ category request) (full_prompt X request)
     = true
  /\ contains (json_dumps_suppliers X (suppliers request))
       (full_prompt X request) = true.
Proof.
  unfold full_prompt, _build_user_prompt. split; [|split].
  - apply startswith_self_app.
  - set (opening := lines ["Analyze the following procurement data and generate structured insights."; ""]).
    assert (user_prompt_head = opening ++ nl ++ py "CATEGORY: ") as ->
      by reflexivity.
    match goal with
    | |- contains ?p ?t = true =>
        replace t
          with ((_build_system_prompt ++ nl ++ nl ++ opening ++ nl)
                ++ p ++ (user_prompt_mid
                         ++ json_dumps_suppliers X (suppliers request)
                         ++ user_prompt_tail))
          by (by rewrite <- !app_assoc)
    end.
    apply contains_inside.
  - match goal with
    | |- contains ?p ?t = true =>
        replace t
          with ((_build_system_prompt ++ nl ++ nl ++ user_prompt_head
                 ++ category request ++ user_prompt_mid)
                ++ p ++ user_prompt_tail)
          by (by rewrite <- !app_assoc)
    end.
    apply contains_inside.
Qed.

(** ** Concrete runs of the further properties *)

Lemma validation_rejects_with_errors_witness :
  exists errors,
    InsightsRequest_validate blank_category_body = inl errors
    /\ body_ok blank_category_body = false /\ errors <> [].
Proof.
  eexists. split; [reflexivity|].
  apply (validation_rejects_with_errors blank_category_body). reflexivity.
Defined.

Lemma fix_truncation_balances_witness :
  endswith truncated_example (py "}") = false
  /\ (count (fix_truncation truncated_example) 123%N
      <= count (fix_truncation truncated_example) 125%N)%nat
  /\ count (fix_truncation truncated_example) 123 = count truncated_example 123.
Proof.
  split; [reflexivity|].
  apply (fix_truncation_balances truncated_example). reflexivity.
Defined.

Lemma fenced_response_unwrapped_witness :
  strip (pyq "{'a': 1}") = pyq "{'a': 1}"
  /\ repair_text (fenced (py "json") (pyq "{'a': 1}")) = pyq "{'a': 1}".
Proof.
  split; [reflexivity|].
  apply (fenced_response_unwrapped (py "json") (pyq "{'a': 1}"));
    [by right | reflexivity | vm_compute; lia].
Defined.

Lemma sanitized_fields_well_formed_witness :
  _validate_and_fix_response (sample_externals answering) sample_response
    (py "Steel") = inr sample_sanitized
  /\ Forall (fun f => is_nonempty_list (sample_sanitized !! f) = true)
       list_fields.
Proof.
  assert (_validate_and_fix_response (sample_externals answering)
            sample_response (py "Steel") = inr sample_sanitized) as H
    by (vm_compute; reflexivity).
  split; [exact H|].
  destruct (sanitized_fields_well_formed (sample_externals answering)
              sample_response sample_sanitized (py "Steel") H)
    as (_ & _ & Hl & _).
  exact Hl.
Defined.

Lemma sanitizer_keeps_valid_fields_witness :
  _validate_and_fix_response (sample_externals answering) sample_response
    (py "Steel") = inr sample_sanitized
  /\ sample_sanitized !! py "category" = Some (PStr (py "Steel")).
Proof.
  assert (_validate_and_fix_response (sample_externals answering)
            sample_response (py "Steel") = inr sample_sanitized) as H
    by (vm_compute; reflexivity).
  split; [exact H|].
  destruct (sanitizer_keeps_valid_fields (sample_externals answering)
              sample_response sample_sanitized (py "Steel") H)
    as (_ & Hc & _).
  apply Hc; reflexivity.
Defined.

Lemma sanitizer_idempotent_witness :
  _validate_and_fix_response (sample_externals answering) sample_response
    (py "Steel") = inr sample_sanitized
  /\ _validate_and_fix_response (sample_externals answering) sample_sanitized
       (py "Steel") = inr sample_sanitized.
Proof.
  assert (_validate_and_fix_response (sample_externals answering)
            sample_response (py "Steel") = inr sample_sanitized) as H
    by (vm_compute; reflexivity).
  split; [exact H|].
  exact (sanitizer_idempotent (sample_externals answering) sample_response
           sample_sanitized (py "Steel") H).
Defined.

Lemma sanitized_passes_enum_and_score_witness :
  _validate_and_fix_response (sample_externals answering) sample_response
    (py "Steel") = inr sample_sanitized
  /\ exists r, field_risk_level sample_sanitized = inr r.
Proof.
  assert (_validate_and_fix_response (sample_externals answering)
            sample_response (py "Steel") = inr sample_sanitized) as H
    by (vm_compute; reflexivity).
  split; [exact H|].
  destruct (sanitized_passes_enum_and_score (sample_externals answering)
              sample_response sample_sanitized (py "Steel") H) as [Hr _].
  exact Hr.
Defined.

Lemma constructed_response_invariants_witness :
  InsightsResponse_new (sample_externals answering) sample_sanitized
  = inr sample_insights
  /\ well_formed_items (key_risks sample_insights).
Proof.
  assert (InsightsResponse_new (sample_externals answering) sample_sanitized
          = inr sample_insights) as H by (vm_compute; reflexivity).
  split; [exact H|].
  destruct (constructed_response_invariants (sample_externals answering)
              sample_sanitized sample_insights H) as [Hk _].
  exact Hk.
Defined.

Lemma successful_answer_invariants_witness :
  post_generate_insights (sample_externals answering) sample_body 0
  = ({| status_code := 200; content := Insights sample_insights |}, 1%nat)
  /\ body_ok sample_body = true
  /\ (confidence_score sample_insights <=? 0.98)%float = true.
Proof.
  assert (post_generate_insights (sample_externals answering) sample_body 0
          = ({| status_code := 200; content := Insights sample_insights |},
             1%nat)) as H by (vm_compute; reflexivity).
  split; [exact H|].
  destruct (successful_answer_invariants (sample_externals answering)
              sample_body 0 1 sample_insights H) as (Hb & _ & _ & Hs & _).
  split; [exact Hb | exact Hs].
Defined.

Lemma missing_category_echoes_request_witness :
  delete (py "category") sample_response !! py "category" = None
  /\ _validate_and_fix_response (sample_externals answering)
       (delete (py "category") sample_response) (py "Steel")
     = inr sample_sanitized
  /\ InsightsResponse_new (sample_externals answering) sample_sanitized
     = inr sample_insights
  /\ resp_category sample_insights = py "Steel".
Proof.
  assert (_validate_and_fix_response (sample_externals answering)
            (delete (py "category") sample_response) (py "Steel")
          = inr sample_sanitized) as Hs by (vm_compute; reflexivity).
  assert (InsightsResponse_new (sample_externals answering) sample_sanitized
          = inr sample_insights) as Hn by (vm_compute; reflexivity).
  split; [reflexivity|]. split; [exact Hs|]. split; [exact Hn|].
  apply (missing_category_echoes_request (sample_externals answering)
           (delete (py "category") sample_response) sample_sanitized
           (py "Steel") sample_insights eq_refl Hs Hn).
  left. reflexivity.
Defined.

(** ** A fenced response with a closing fence and a brace deficit *)

Lemma fenced_opening_dropped_app (tag body rest : str) :
  tag = [] \/ tag = py "json" ->
  (if startswith (fenced tag body ++ rest) (py "```json")
   then drop 7 (fenced tag body ++ rest)
   else if startswith (fenced tag body ++ rest) (py "```")
        then drop 3 (fenced tag body ++ rest)
        else fenced tag body ++ rest)
  = nl ++ (body ++ nl ++ fence) ++ rest.
Proof.
  intros [-> | ->]; unfold fenced; simpl; by rewrite <- ?app_assoc.
Qed.

Lemma strip_behind_newline (w : str) (k : nat) :
  w <> [] -> head_ok w = true ->
  strip (nl ++ w ++ replicate (S k) 125) = w ++ replicate (S k) 125.
Proof.
  intros Hne Hh. unfold strip.
  change (lstrip (nl ++ w ++ replicate (S k) 125))
    with (lstrip (w ++ replicate (S k) 125)).
  rewrite lstrip_id by (by rewrite head_ok_app_nonempty).
  unfold rstrip. rewrite lstrip_id by (by rewrite rev_app_replicate_S).
  apply rev_involutive.
Qed.

(** The braces that the heuristic adds to a fenced response land behind
    the closing fence, and the fence strip, which looks for the marker
    at the very end, leaves that fence in the text; with the fences
    stripped first the heuristic would work on the body alone. *)
Lemma braces_land_behind_closing_fence (tag body : str) :
  tag = [] \/ tag = py "json" ->
  strip body = body ->
  (count body 125%N < count body 123%N)%nat ->
  repair_text (fenced tag body)
  = (body ++ nl ++ fence)
    ++ replicate (count body 123 - count body 125) 125
  /\ repair_text_fences_first (fenced tag body) = fix_truncation body.
Proof.
  intros Htag Hs Hlt.
  assert (body <> []) as Hne
    by (apply (count_positive_nonempty body 123); lia).
  destruct (strip_fixed_inv body Hs) as [Hh _].
  split.
  - unfold repair_text. rewrite fenced_trimmed.
    assert (endswith (fenced tag body) (py "}") = false) as He.
    { unfold endswith, fenced. by rewrite !rev_app_distr. }
    assert (count (fenced tag body) 123 = count body 123
            /\ count (fenced tag body) 125 = count body 125) as [H1 H2].
    { unfold fenced. rewrite !count_app.
      destruct Htag as [-> | ->]; simpl; lia. }
    unfold fix_truncation. cbv zeta. rewrite He, H1, H2. cbn [negb].
    destruct (Nat.ltb_spec (count body 125) (count body 123)); [|lia].
    destruct (Nat.sub (count body 123) (count body 125)) as [|k] eqn:Ek;
      [lia|].
    unfold _clean_json_response.
    assert (fenced tag body <> []) as Hfne by (unfold fenced; simpl; done).
    rewrite (trimmed_app_braces (fenced tag body) k Hfne (fenced_trimmed _ _)).
    rewrite (fenced_opening_dropped_app tag body _ Htag).
    assert (endswith (nl ++ (body ++ nl ++ fence) ++ replicate (S k) 125)
              (py "```") = false) as ->.
    { rewrite app_assoc. unfold endswith. by rewrite rev_app_replicate_S. }
    apply strip_behind_newline; [by destruct body|].
    by rewrite head_ok_app_nonempty.
  - unfold repair_text_fences_first.
    by rewrite fenced_trimmed, (clean_fenced tag body Htag Hs).
Qed.
